(** * Cyberion kernel driver: the event handoff core

    A shallow embedding of [src/Driver.c] and [src/Public.h]: the pending-IRP
    slot ([g_PendingIrp]), the process-notify callback that fills and
    completes the pending request, the device-control dispatcher and the
    unload routine, followed by the properties of the handoff.

    Kernel memory is a finite map from IRP addresses to IRP contents, so that
    [g_PendingIrp] is a pointer into that store exactly as in the driver.
    The driver routines run in a small state-and-failure monad: a routine
    fails ([None]) when it dereferences an address that holds no live IRP or
    when it spins on a lock that is already held.  Each routine runs to its
    end before the next one starts.  [DbgPrint] output is not modelled, and
    a request's system buffer is taken to be large enough for the record the
    driver writes into it. *)

From Stdlib Require Import ZArith List Bool Lia.
From Stdlib.Strings Require Import Byte.
From stdpp Require Import base option gmap fin_maps list.

Open Scope Z_scope.

(** ** Public.h: shared constants and records *)

Definition HANDLE := Z.
Definition NTSTATUS := Z.

(** An IRP pointer; the C value [NULL] is [None] at type [option PIRP]. *)
Definition PIRP := N.

Definition MAX_PATH_SIZE : Z := 260.
Definition sizeof_WCHAR : Z := 2.
(** Pointer width of the build; only [sizeof_PROCESS_CREATION_INFO]
    depends on it. *)
Definition sizeof_HANDLE : Z := 8.

(** [WCHAR ImageFileName[MAX_PATH_SIZE]] is kept as the bytes it occupies,
    because [RtlCopyMemory] is given a byte count. *)
Record PROCESS_CREATION_INFO := mkPROCESS_CREATION_INFO {
  ProcessId : HANDLE;
  ParentProcessId : HANDLE;
  ImageFileName : list byte
}.

Definition sizeof_PROCESS_CREATION_INFO : Z :=
  sizeof_HANDLE + sizeof_HANDLE + MAX_PATH_SIZE * sizeof_WCHAR.

Definition UserResponseAllow : Z := 0.
Definition UserResponseBlock : Z := 1.

Module UserResponse.
Record USER_RESPONSE := mk {
  ProcessId : HANDLE;
  Response : Z
}.
End UserResponse.
Abbreviation USER_RESPONSE := UserResponse.USER_RESPONSE.

(** [CTL_CODE] of the WDK headers. *)
Definition CTL_CODE (DeviceType Function Method Access : Z) : Z :=
  Z.lor (Z.lor (Z.lor (Z.shiftl DeviceType 16) (Z.shiftl Access 14))
               (Z.shiftl Function 2)) Method.

Definition FILE_DEVICE_UNKNOWN : Z := 0x22.
Definition METHOD_BUFFERED : Z := 0.
Definition FILE_READ_DATA : Z := 1.
Definition FILE_WRITE_DATA : Z := 2.

Definition IOCTL_CYBERION_GET_PROCESS_INFO : Z :=
  CTL_CODE FILE_DEVICE_UNKNOWN 0x801 METHOD_BUFFERED FILE_READ_DATA.
Definition IOCTL_CYBERION_SEND_RESPONSE : Z :=
  CTL_CODE FILE_DEVICE_UNKNOWN 0x802 METHOD_BUFFERED FILE_WRITE_DATA.

(** ** Kernel types used by Driver.c *)

(** NTSTATUS values, as the 32-bit patterns of ntstatus.h. *)
Definition STATUS_SUCCESS : NTSTATUS := 0x00000000.
Definition STATUS_PENDING : NTSTATUS := 0x00000103.
Definition STATUS_DEVICE_BUSY : NTSTATUS := 0x80000011.
Definition STATUS_INVALID_DEVICE_REQUEST : NTSTATUS := 0xC0000010.
Definition STATUS_CANCELLED : NTSTATUS := 0xC0000120.

(** [NT_SUCCESS(s)] is [(LONG)s >= 0]: the sign bit is clear. *)
Definition NT_SUCCESS (s : NTSTATUS) : bool := negb (Z.testbit s 31).

(** A counted string: [Length] is a byte count (USHORT), [Buffer] the bytes
    it points to. *)
Record UNICODE_STRING := mkUNICODE_STRING {
  Length : Z;
  MaximumLength : Z;
  Buffer : list byte
}.

Module CreateInfo.
(** The fields of [PS_CREATE_NOTIFY_INFO] the driver reads;
    [ImageFileName] is a pointer that may be [NULL]. *)
Record PS_CREATE_NOTIFY_INFO := mk {
  ParentProcessId : HANDLE;
  ImageFileName : option UNICODE_STRING
}.
End CreateInfo.
Abbreviation PS_CREATE_NOTIFY_INFO := CreateInfo.PS_CREATE_NOTIFY_INFO.

Record IO_STATUS_BLOCK := mkIO_STATUS_BLOCK {
  Status : NTSTATUS;
  Information : Z
}.

(** Driver.c declares no cancel routine and never calls
    [IoSetCancelRoutine]: the type of cancel routines an IRP of this driver
    can carry has no inhabitant. *)
Inductive DRIVER_CANCEL : Set := .

(** The parts of an IRP the driver touches.  [SystemBuffer] is viewed
    through the cast [(PPROCESS_CREATION_INFO)] the driver applies to it. *)
Record IRP := mkIRP {
  IoControlCode : Z;
  SystemBuffer : PROCESS_CREATION_INFO;
  IoStatus : IO_STATUS_BLOCK;
  PendingReturned : bool;
  Cancel : bool;
  CancelRoutine : option DRIVER_CANCEL
}.

(** Calls into the OS whose effect lies outside the driver's own data. *)
Inductive OsCall :=
| RemoveProcessNotifyRoutine
| DeleteSymbolicLink
| DeleteDevice.

(** The driver's globals, the live IRPs, and what it has handed back. *)
Record KernelState := mkKernelState {
  g_PendingIrp : option PIRP;
  g_IrpQueueLock : bool;
  irps : gmap PIRP IRP;
  completed : list (PIRP * IRP);
  os_calls : list OsCall
}.

(** ** Field updates *)

Definition set_ProcessId (v : HANDLE) (p : PROCESS_CREATION_INFO) :=
  mkPROCESS_CREATION_INFO v (ParentProcessId p) (ImageFileName p).
Definition set_ParentProcessId (v : HANDLE) (p : PROCESS_CREATION_INFO) :=
  mkPROCESS_CREATION_INFO (ProcessId p) v (ImageFileName p).
Definition set_ImageFileName (v : list byte) (p : PROCESS_CREATION_INFO) :=
  mkPROCESS_CREATION_INFO (ProcessId p) (ParentProcessId p) v.

Definition set_SystemBuffer (f : PROCESS_CREATION_INFO -> PROCESS_CREATION_INFO)
    (i : IRP) : IRP :=
  mkIRP (IoControlCode i) (f (SystemBuffer i)) (IoStatus i)
        (PendingReturned i) (Cancel i) (CancelRoutine i).
Definition set_Status (s : NTSTATUS) (i : IRP) : IRP :=
  mkIRP (IoControlCode i) (SystemBuffer i)
        (mkIO_STATUS_BLOCK s (Information (IoStatus i)))
        (PendingReturned i) (Cancel i) (CancelRoutine i).
Definition set_Information (n : Z) (i : IRP) : IRP :=
  mkIRP (IoControlCode i) (SystemBuffer i)
        (mkIO_STATUS_BLOCK (Status (IoStatus i)) n)
        (PendingReturned i) (Cancel i) (CancelRoutine i).
Definition set_PendingReturned (b : bool) (i : IRP) : IRP :=
  mkIRP (IoControlCode i) (SystemBuffer i) (IoStatus i)
        b (Cancel i) (CancelRoutine i).
Definition set_Cancel (b : bool) (i : IRP) : IRP :=
  mkIRP (IoControlCode i) (SystemBuffer i) (IoStatus i)
        (PendingReturned i) b (CancelRoutine i).

Definition with_PendingIrp (v : option PIRP) (st : KernelState) :=
  mkKernelState v (g_IrpQueueLock st) (irps st) (completed st) (os_calls st).
Definition with_lock (b : bool) (st : KernelState) :=
  mkKernelState (g_PendingIrp st) b (irps st) (completed st) (os_calls st).
Definition with_irps (m : gmap PIRP IRP) (st : KernelState) :=
  mkKernelState (g_PendingIrp st) (g_IrpQueueLock st) m (completed st)
                (os_calls st).
Definition with_completed (l : list (PIRP * IRP)) (st : KernelState) :=
  mkKernelState (g_PendingIrp st) (g_IrpQueueLock st) (irps st) l
                (os_calls st).
Definition with_os_calls (l : list OsCall) (st : KernelState) :=
  mkKernelState (g_PendingIrp st) (g_IrpQueueLock st) (irps st)
                (completed st) l.

(** ** The monad of driver routines *)

Definition M (A : Type) : Type := KernelState -> option (A * KernelState).

Definition ret {A} (a : A) : M A := fun st => Some (a, st).
Definition bind {A B} (m : M A) (k : A -> M B) : M B :=
  fun st => match m st with
            | Some (a, st') => k a st'
            | None => None
            end.

Notation "'let*' x ':=' m 'in' k" := (bind m (fun x => k))
  (at level 10, x name, m at level 100, k at level 200).
Notation "m ';;' k" := (bind m (fun _ => k))
  (at level 100, k at level 200, right associativity).

Definition get_PendingIrp : M (option PIRP) :=
  fun st => Some (g_PendingIrp st, st).
Definition put_PendingIrp (v : option PIRP) : M unit :=
  fun st => Some (tt, with_PendingIrp v st).

(** [*Irp]: fails on an address that holds no live IRP. *)
Definition deref (Irp : PIRP) : M IRP :=
  fun st => match irps st !! Irp with
            | Some i => Some (i, st)
            | None => None
            end.

(** [Irp->field = ...]. *)
Definition assign (Irp : PIRP) (f : IRP -> IRP) : M unit :=
  fun st => match irps st !! Irp with
            | Some i => Some (tt, with_irps (<[Irp := f i]> (irps st)) st)
            | None => None
            end.

(** ** Kernel services *)

(** A spin lock that is already held is never obtained by a second
    acquirer in a run without interleaving. *)
Definition KeAcquireInStackQueuedSpinLock : M unit :=
  fun st => if g_IrpQueueLock st then None
            else Some (tt, with_lock true st).

Definition KeReleaseInStackQueuedSpinLock : M unit :=
  fun st => if g_IrpQueueLock st then Some (tt, with_lock false st)
            else None.

(** [IoCompleteRequest]: the IRP goes back to the I/O manager with the
    contents it has at that moment, and is no longer the driver's. *)
Definition IoCompleteRequest (Irp : PIRP) : M unit :=
  fun st => match irps st !! Irp with
            | Some i =>
                Some (tt, with_completed (completed st ++ [(Irp, i)])
                            (with_irps (delete Irp (irps st)) st))
            | None => None
            end.

Definition IoMarkIrpPending (Irp : PIRP) : M unit :=
  assign Irp (set_PendingReturned true).

(** [IoCancelIrp] sets the IRP's cancel bit and calls the IRP's cancel
    routine if it has one; it returns [FALSE] when there is none.  It does
    not complete the IRP itself. *)
Definition IoCancelIrp (Irp : PIRP) : M bool :=
  let* i := deref Irp in
  assign Irp (set_Cancel true) ;;
  match CancelRoutine i with
  | Some routine => match routine with end
  | None => ret false
  end.

Definition os_call (c : OsCall) : M unit :=
  fun st => Some (tt, with_os_calls (os_calls st ++ [c]) st).

(** [RtlCopyMemory(dst, src, n)]: the first [n] bytes of [dst] become the
    first [n] bytes of [src]; the rest of [dst] stays. *)
Definition RtlCopyMemory (dst src : list byte) (n : Z) : list byte :=
  firstn (Z.to_nat n) src ++ skipn (Z.to_nat n) dst.

(** ** Driver.c: the routines *)

(** [CyberionCreateClose]: IRP_MJ_CREATE and IRP_MJ_CLOSE. *)
Definition CyberionCreateClose (Irp : PIRP) : M NTSTATUS :=
  assign Irp (set_Status STATUS_SUCCESS) ;;
  assign Irp (set_Information 0) ;;
  IoCompleteRequest Irp ;;
  ret STATUS_SUCCESS.

(** [ProcessNotifyCallback]: called by the OS on every process creation
    ([CreateInfo] present) and exit ([CreateInfo] is [NULL]).  The unused
    [Process] argument is left out. *)
Definition ProcessNotifyCallback (ProcessId : HANDLE)
    (CreateInfo : option PS_CREATE_NOTIFY_INFO) : M unit :=
  match CreateInfo with
  | Some ci =>
      KeAcquireInStackQueuedSpinLock ;;
      let* pending := get_PendingIrp in
      match pending with
      | Some Irp =>
          assign Irp (set_SystemBuffer (set_ProcessId ProcessId)) ;;
          assign Irp (set_SystemBuffer
                        (set_ParentProcessId (CreateInfo.ParentProcessId ci))) ;;
          match CreateInfo.ImageFileName ci with
          | Some name =>
              assign Irp (set_SystemBuffer (fun pInfo =>
                set_ImageFileName
                  (RtlCopyMemory (ImageFileName pInfo) (Buffer name)
                     (Z.min (Length name) (MAX_PATH_SIZE * sizeof_WCHAR)))
                  pInfo))
          | None => ret tt
          end ;;
          assign Irp (set_Status STATUS_SUCCESS) ;;
          assign Irp (set_Information sizeof_PROCESS_CREATION_INFO) ;;
          IoCompleteRequest Irp ;;
          put_PendingIrp None
      | None => ret tt
      end ;;
      KeReleaseInStackQueuedSpinLock
  | None => ret tt
  end.

(** [CyberionDeviceControl]: IRP_MJ_DEVICE_CONTROL. *)
Definition CyberionDeviceControl (Irp : PIRP) : M NTSTATUS :=
  let* stack := deref Irp in
  if Z.eqb (IoControlCode stack) IOCTL_CYBERION_GET_PROCESS_INFO then
    KeAcquireInStackQueuedSpinLock ;;
    let* pending := get_PendingIrp in
    let* status :=
      match pending with
      | Some _ => ret STATUS_DEVICE_BUSY
      | None =>
          put_PendingIrp (Some Irp) ;;
          IoMarkIrpPending Irp ;;
          ret STATUS_PENDING
      end in
    KeReleaseInStackQueuedSpinLock ;;
    (if Z.eqb status STATUS_PENDING then ret tt
     else
       assign Irp (set_Status status) ;;
       assign Irp (set_Information 0) ;;
       IoCompleteRequest Irp) ;;
    ret status
  else if Z.eqb (IoControlCode stack) IOCTL_CYBERION_SEND_RESPONSE then
    assign Irp (set_Status STATUS_SUCCESS) ;;
    assign Irp (set_Information 0) ;;
    IoCompleteRequest Irp ;;
    ret STATUS_SUCCESS
  else
    assign Irp (set_Status STATUS_INVALID_DEVICE_REQUEST) ;;
    assign Irp (set_Information 0) ;;
    IoCompleteRequest Irp ;;
    ret STATUS_INVALID_DEVICE_REQUEST.

(** The block of [CyberionUnload] that deals with the pending IRP
    (Driver.c lines 106-110); it takes no lock. *)
Definition CancelPendingIrp : M unit :=
  let* pending := get_PendingIrp in
  match pending with
  | Some Irp =>
      IoCancelIrp Irp ;;
      put_PendingIrp None
  | None => ret tt
  end.

(** [CyberionUnload]. *)
Definition CyberionUnload : M unit :=
  os_call RemoveProcessNotifyRoutine ;;
  CancelPendingIrp ;;
  os_call DeleteSymbolicLink ;;
  os_call DeleteDevice.

(** The state a successful [DriverEntry] leaves: no pending IRP
    ([g_PendingIrp = NULL]), the spin lock initialised and free. *)
Definition initial_state : KernelState :=
  mkKernelState None false ∅ [] [].

(** ** Views and environment *)

(** UTF-16 code units of a byte buffer (little-endian pairs); a trailing
    odd byte is not a code unit. *)
Definition WCHAR_of (lo hi : byte) : Z :=
  Z.lor (Z.of_N (Byte.to_N lo)) (Z.shiftl (Z.of_N (Byte.to_N hi)) 8).

Fixpoint wchars (bs : list byte) : list Z :=
  match bs with
  | lo :: hi :: rest => WCHAR_of lo hi :: wchars rest
  | _ => []
  end.

(** The system buffer of a buffered IOCTL seen through [(PUSER_RESPONSE)]:
    both records start with a HANDLE, and the 32-bit enum that follows it
    lies in the low half of the second HANDLE. *)
Definition as_USER_RESPONSE (b : PROCESS_CREATION_INFO) : USER_RESPONSE :=
  UserResponse.mk (ProcessId b) (Z.land (ParentProcessId b) 0xFFFFFFFF).

(** Well-formedness of a decision record in the spec's words: the process
    id is set and the verdict is one of the two enum values. *)
Definition well_formed_decision (r : USER_RESPONSE) : bool :=
  negb (UserResponse.ProcessId r =? 0)
  && ((UserResponse.Response r =? UserResponseAllow)
      || (UserResponse.Response r =? UserResponseBlock)).

(** The callback returns VOID.  What the spec calls the result of a publish
    is read off the completion log: [Delivered] when the call handed an IRP
    back to the I/O manager, [Dropped] when it did not. *)
Inductive PublishResult := Delivered | Dropped.

Definition publish (ProcessId : HANDLE) (ci : PS_CREATE_NOTIFY_INFO)
    : M PublishResult :=
  fun st =>
    match ProcessNotifyCallback ProcessId (Some ci) st with
    | Some (_, st') =>
        Some (if Nat.eqb (length (completed st')) (length (completed st))
              then Dropped else Delivered, st')
    | None => None
    end.

Fixpoint publish_all (evs : list (HANDLE * PS_CREATE_NOTIFY_INFO))
    : M (list PublishResult) :=
  match evs with
  | [] => ret []
  | (pid, ci) :: rest =>
      let* r := publish pid ci in
      let* rs := publish_all rest in
      ret (r :: rs)
  end.


(** What reaches the driver from outside: a device-control or create/close
    request carried by an IRP the I/O manager has just built, a process
    notification, or the unload. *)
Inductive Request :=
| DeviceControl (Irp : PIRP) (code : Z) (buf : PROCESS_CREATION_INFO)
| CreateClose (Irp : PIRP)
| ProcessNotify (ProcessId : HANDLE) (CreateInfo : option PS_CREATE_NOTIFY_INFO)
| Unload.

Definition new_irp (code : Z) (buf : PROCESS_CREATION_INFO) : IRP :=
  mkIRP code buf (mkIO_STATUS_BLOCK 0 0) false false None.

Definition empty_buffer : PROCESS_CREATION_INFO :=
  mkPROCESS_CREATION_INFO 0 0 [].

(** The I/O manager builds a request's IRP at an address that holds no
    live IRP. *)
Definition admissible (r : Request) (st : KernelState) : bool :=
  match r with
  | DeviceControl Irp _ _ | CreateClose Irp =>
      match irps st !! Irp with Some _ => false | None => true end
  | _ => true
  end.

Definition arrive (r : Request) (st : KernelState) : KernelState :=
  match r with
  | DeviceControl Irp code buf =>
      with_irps (<[Irp := new_irp code buf]> (irps st)) st
  | CreateClose Irp =>
      with_irps (<[Irp := new_irp 0 empty_buffer]> (irps st)) st
  | _ => st
  end.

Definition serve (r : Request) : M unit :=
  match r with
  | DeviceControl Irp _ _ => CyberionDeviceControl Irp ;; ret tt
  | CreateClose Irp => CyberionCreateClose Irp ;; ret tt
  | ProcessNotify pid ci => ProcessNotifyCallback pid ci
  | Unload => CyberionUnload
  end.

Fixpoint run (rs : list Request) (st : KernelState) : option KernelState :=
  match rs with
  | [] => Some st
  | r :: rs' =>
      if admissible r st then
        match serve r (arrive r st) with
        | Some (_, st') => run rs' st'
        | None => None
        end
      else None
  end.

(** The image-path bytes a creation notification makes the callback copy. *)
Definition copy_length (name : UNICODE_STRING) : Z :=
  Z.min (Length name) (MAX_PATH_SIZE * sizeof_WCHAR).

(** A counted string as the kernel hands it out: [Length] is a whole number
    of code units and lies within the buffer. *)
Definition valid_UNICODE_STRING (name : UNICODE_STRING) : bool :=
  (0 <=? Length name) && Z.even (Length name)
  && (Length name <=? MaximumLength name)
  && (MaximumLength name <=? Z.of_nat (length (Buffer name))).

Definition valid_name (name : option UNICODE_STRING) : bool :=
  match name with
  | Some n => valid_UNICODE_STRING n
  | None => true
  end.

(** The IRP contents the callback hands back for a creation notification:
    the composition of its five assignments. *)
Definition fill (ProcessId : HANDLE) (ci : PS_CREATE_NOTIFY_INFO)
    (i : IRP) : IRP :=
  let b := SystemBuffer i in
  mkIRP (IoControlCode i)
    (mkPROCESS_CREATION_INFO ProcessId (CreateInfo.ParentProcessId ci)
       match CreateInfo.ImageFileName ci with
       | Some name =>
           RtlCopyMemory (ImageFileName b) (Buffer name) (copy_length name)
       | None => ImageFileName b
       end)
    (mkIO_STATUS_BLOCK STATUS_SUCCESS sizeof_PROCESS_CREATION_INFO)
    (PendingReturned i) (Cancel i) (CancelRoutine i).

(** An IRP completed on the spot with [status] and no output. *)
Definition finish (status : NTSTATUS) (i : IRP) : IRP :=
  set_Information 0 (set_Status status i).

(** The state invariant of the handoff: the lock is free between requests,
    every live IRP that has not been cancelled is the one in the slot, and
    the slot points to a live, pending, uncancelled wait request. *)
Definition single_slot (st : KernelState) : Prop :=
  g_IrpQueueLock st = false
  /\ (forall a i, irps st !! a = Some i -> Cancel i = false ->
                 g_PendingIrp st = Some a)
  /\ (forall t, g_PendingIrp st = Some t ->
                exists i, irps st !! t = Some i
                          /\ Cancel i = false
                          /\ PendingReturned i = true
                          /\ IoControlCode i = IOCTL_CYBERION_GET_PROCESS_INFO).

(** The OS calls of one unload, in order. *)
Definition unload_calls : list OsCall :=
  [RemoveProcessNotifyRoutine; DeleteSymbolicLink; DeleteDevice].

(** The source image path as code units: the [Length] bytes of the
    counted string. *)
Definition path_of (name : UNICODE_STRING) : list Z :=
  wchars (firstn (Z.to_nat (Length name)) (Buffer name)).

(** The image path a creation event carries once bounded to
    [MAX_PATH_SIZE] code units; empty when the OS supplies none. *)
Definition event_path (ci : PS_CREATE_NOTIFY_INFO) : list Z :=
  match CreateInfo.ImageFileName ci with
  | Some name => firstn (Z.to_nat MAX_PATH_SIZE) (path_of name)
  | None => []
  end.

(** Code units the copy writes. *)
Definition copied_units (name : UNICODE_STRING) : nat :=
  Z.to_nat (copy_length name / sizeof_WCHAR).

(** ** DriverEntry and the driver's objects in the OS *)

Definition PDEVICE_OBJECT := N.

(** The driver's routines as the function pointers [DriverEntry] stores in
    the driver object. *)
Inductive DriverRoutine :=
| Routine_CyberionUnload
| Routine_CyberionCreateClose
| Routine_CyberionDeviceControl.

Definition IRP_MJ_CREATE : Z := 0x00.
Definition IRP_MJ_CLOSE : Z := 0x02.
Definition IRP_MJ_DEVICE_CONTROL : Z := 0x0e.

Record DRIVER_OBJECT := mkDRIVER_OBJECT {
  DriverUnload : option DriverRoutine;
  MajorFunction : gmap Z DriverRoutine
}.

(** What the driver has brought into being in the OS: its device object,
    the symbolic link to it, and the registration of
    [ProcessNotifyCallback]. *)
Record OsObjects := mkOsObjects {
  device : option PDEVICE_OBJECT;
  symbolic_link : bool;
  notify_routine : bool
}.

Definition no_objects : OsObjects := mkOsObjects None false false.

(** The answers of the OS to the three calls [DriverEntry] makes: they are
    the OS's choice, so the routine takes them as an argument. *)
Record OsReplies := mkOsReplies {
  IoCreateDevice_status : NTSTATUS;
  IoCreateDevice_object : PDEVICE_OBJECT;
  IoCreateSymbolicLink_status : NTSTATUS;
  PsSetCreateProcessNotifyRoutineEx_status : NTSTATUS
}.

Record LoadState := mkLoadState {
  kernel : KernelState;
  DriverObject : DRIVER_OBJECT;
  g_DeviceObject : option PDEVICE_OBJECT;
  objects : OsObjects
}.

(** The effect of the three calls of the unload path on the OS objects. *)
Definition perform (c : OsCall) (o : OsObjects) : OsObjects :=
  match c with
  | RemoveProcessNotifyRoutine =>
      mkOsObjects (device o) (symbolic_link o) false
  | DeleteSymbolicLink => mkOsObjects (device o) false (notify_routine o)
  | DeleteDevice => mkOsObjects None (symbolic_link o) (notify_routine o)
  end.

Definition with_objects (o : OsObjects) (ls : LoadState) : LoadState :=
  mkLoadState (kernel ls) (DriverObject ls) (g_DeviceObject ls) o.
Definition with_kernel (k : KernelState) (ls : LoadState) : LoadState :=
  mkLoadState k (DriverObject ls) (g_DeviceObject ls) (objects ls).
Definition with_DriverObject (d : DRIVER_OBJECT) (ls : LoadState) :=
  mkLoadState (kernel ls) d (g_DeviceObject ls) (objects ls).

(** [IoCreateDevice(..., &g_DeviceObject)]: on success the device exists
    and its address is stored through the out pointer. *)
Definition IoCreateDevice (os : OsReplies) (ls : LoadState)
    : NTSTATUS * LoadState :=
  if NT_SUCCESS (IoCreateDevice_status os) then
    (IoCreateDevice_status os,
     mkLoadState (kernel ls) (DriverObject ls)
       (Some (IoCreateDevice_object os))
       (mkOsObjects (Some (IoCreateDevice_object os))
          (symbolic_link (objects ls)) (notify_routine (objects ls))))
  else (IoCreateDevice_status os, ls).

Definition IoCreateSymbolicLink (os : OsReplies) (ls : LoadState)
    : NTSTATUS * LoadState :=
  if NT_SUCCESS (IoCreateSymbolicLink_status os) then
    (IoCreateSymbolicLink_status os,
     with_objects (mkOsObjects (device (objects ls)) true
                     (notify_routine (objects ls))) ls)
  else (IoCreateSymbolicLink_status os, ls).

(** [PsSetCreateProcessNotifyRoutineEx(ProcessNotifyCallback, FALSE)]. *)
Definition PsSetCreateProcessNotifyRoutineEx (os : OsReplies)
    (ls : LoadState) : NTSTATUS * LoadState :=
  if NT_SUCCESS (PsSetCreateProcessNotifyRoutineEx_status os) then
    (PsSetCreateProcessNotifyRoutineEx_status os,
     with_objects (mkOsObjects (device (objects ls))
                     (symbolic_link (objects ls)) true) ls)
  else (PsSetCreateProcessNotifyRoutineEx_status os, ls).

Definition IoDeleteSymbolicLink (ls : LoadState) : LoadState :=
  with_objects (perform DeleteSymbolicLink (objects ls)) ls.
Definition IoDeleteDevice (ls : LoadState) : LoadState :=
  with_objects (perform DeleteDevice (objects ls)) ls.

Definition KeInitializeSpinLock (ls : LoadState) : LoadState :=
  with_kernel (with_lock false (kernel ls)) ls.

Definition set_DriverUnload (r : DriverRoutine) (ls : LoadState) :=
  with_DriverObject
    (mkDRIVER_OBJECT (Some r) (MajorFunction (DriverObject ls))) ls.
Definition set_MajorFunction (mj : Z) (r : DriverRoutine) (ls : LoadState) :=
  with_DriverObject
    (mkDRIVER_OBJECT (DriverUnload (DriverObject ls))
       (<[mj := r]> (MajorFunction (DriverObject ls)))) ls.

(** [DriverEntry]; the unused [RegistryPath] is left out. *)
Definition DriverEntry (os : OsReplies) (ls : LoadState)
    : NTSTATUS * LoadState :=
  let '(status, ls) := IoCreateDevice os ls in
  if negb (NT_SUCCESS status) then (status, ls) else
  let '(status, ls) := IoCreateSymbolicLink os ls in
  if negb (NT_SUCCESS status) then (status, IoDeleteDevice ls) else
  let ls := set_DriverUnload Routine_CyberionUnload ls in
  let ls := set_MajorFunction IRP_MJ_CREATE Routine_CyberionCreateClose ls in
  let ls := set_MajorFunction IRP_MJ_CLOSE Routine_CyberionCreateClose ls in
  let ls := set_MajorFunction IRP_MJ_DEVICE_CONTROL
              Routine_CyberionDeviceControl ls in
  let '(status, ls) := PsSetCreateProcessNotifyRoutineEx os ls in
  if negb (NT_SUCCESS status)
  then (status, IoDeleteDevice (IoDeleteSymbolicLink ls)) else
  let ls := KeInitializeSpinLock ls in
  (STATUS_SUCCESS, ls).

(** [CyberionUnload] on a loaded driver: the routine runs on the driver's
    data, and the OS calls it logs are performed on the OS objects. *)
Definition unload_driver (ls : LoadState) : option LoadState :=
  match CyberionUnload (kernel ls) with
  | Some (_, k) =>
      Some (mkLoadState k (DriverObject ls) (g_DeviceObject ls)
              (fold_left (fun o c => perform c o)
                 (skipn (length (os_calls (kernel ls))) (os_calls k))
                 (objects ls)))
  | None => None
  end.

(** The status [DriverEntry] is to return when a call fails: that of the
    first call that failed. *)
Definition first_failure (os : OsReplies) : NTSTATUS :=
  if NT_SUCCESS (IoCreateDevice_status os) then
    if NT_SUCCESS (IoCreateSymbolicLink_status os) then
      PsSetCreateProcessNotifyRoutineEx_status os
    else IoCreateSymbolicLink_status os
  else IoCreateDevice_status os.

Definition all_succeed (os : OsReplies) : bool :=
  NT_SUCCESS (IoCreateDevice_status os)
  && NT_SUCCESS (IoCreateSymbolicLink_status os)
  && NT_SUCCESS (PsSetCreateProcessNotifyRoutineEx_status os).

(** ** Sample data *)

(** A response buffer whose path field still holds earlier content. *)
Definition stale_buffer : PROCESS_CREATION_INFO :=
  mkPROCESS_CREATION_INFO 7 7 (repeat "X"%byte 520).

(** A state with one wait request accepted at address 1. *)
Definition waiting_state : KernelState :=
  mkKernelState (Some 1%N) false
    {[ 1%N := set_PendingReturned true
                (new_irp IOCTL_CYBERION_GET_PROCESS_INFO stale_buffer) ]}
    [] [].

(** The two-code-unit path "AB". *)
Definition short_name : UNICODE_STRING :=
  mkUNICODE_STRING 4 4 ["A"; "000"; "B"; "000"]%byte.

(** A path of 300 code units. *)
Definition long_name : UNICODE_STRING :=
  mkUNICODE_STRING 600 600 (repeat "A"%byte 600).

Definition short_event : PS_CREATE_NOTIFY_INFO :=
  CreateInfo.mk 1 (Some short_name).
Definition long_event : PS_CREATE_NOTIFY_INFO :=
  CreateInfo.mk 1 (Some long_name).

(** [waiting_state] after the I/O manager has built a second wait request
    at address 2. *)
Definition second_wait_state : KernelState :=
  arrive (DeviceControl 2%N IOCTL_CYBERION_GET_PROCESS_INFO stale_buffer)
         waiting_state.

(** A decision record with no process id and a verdict outside the enum,
    and a state in which it arrives as a SEND_RESPONSE request. *)
Definition malformed_decision : PROCESS_CREATION_INFO :=
  mkPROCESS_CREATION_INFO 0 7 [].

Definition malformed_decision_state : KernelState :=
  arrive (DeviceControl 5%N IOCTL_CYBERION_SEND_RESPONSE malformed_decision)
         waiting_state.

(** A second state with a waiter, at another address and with another
    buffer content. *)
Definition zero_buffer : PROCESS_CREATION_INFO :=
  mkPROCESS_CREATION_INFO 0 0 (repeat "000"%byte 520).

Definition other_waiting_state : KernelState :=
  mkKernelState (Some 9%N) false
    {[ 9%N := set_PendingReturned true
                (new_irp IOCTL_CYBERION_GET_PROCESS_INFO zero_buffer) ]}
    [] [].

(** Two wait requests, a creation notification, a third wait request. *)
Definition sample_requests : list Request :=
  [ DeviceControl 1%N IOCTL_CYBERION_GET_PROCESS_INFO stale_buffer;
    DeviceControl 2%N IOCTL_CYBERION_GET_PROCESS_INFO stale_buffer;
    ProcessNotify 200 (Some short_event);
    DeviceControl 3%N IOCTL_CYBERION_GET_PROCESS_INFO zero_buffer ].

(** The state [sample_requests] lead to: request 2 was refused, request 1
    was completed with the event, request 3 waits. *)
Definition sample_state : KernelState :=
  mkKernelState (Some 3%N) false
    {[ 3%N := set_PendingReturned true
                (new_irp IOCTL_CYBERION_GET_PROCESS_INFO zero_buffer) ]}
    [ (2%N, finish STATUS_DEVICE_BUSY
              (new_irp IOCTL_CYBERION_GET_PROCESS_INFO stale_buffer));
      (1%N, fill 200 short_event
              (set_PendingReturned true
                 (new_irp IOCTL_CYBERION_GET_PROCESS_INFO stale_buffer))) ]
    [].

(** [waiting_state] with a device-control request of a code the driver
    does not know at address 4. *)
Definition unknown_code_state : KernelState :=
  arrive (DeviceControl 4%N 0x222000 zero_buffer) waiting_state.

(** [waiting_state] with a create/close request at address 6. *)
Definition close_state : KernelState :=
  arrive (CreateClose 6%N) waiting_state.

(** The initial state with a first wait request built at address 1. *)
Definition first_wait_state : KernelState :=
  arrive (DeviceControl 1%N IOCTL_CYBERION_GET_PROCESS_INFO stale_buffer)
         initial_state.

(** The initial state with two wait requests built at addresses 1 and 2. *)
Definition two_waits_state : KernelState :=
  arrive (DeviceControl 2%N IOCTL_CYBERION_GET_PROCESS_INFO zero_buffer)
         first_wait_state.

(** Requests that bring an IRP of their own. *)
Definition is_arrival (r : Request) : bool :=
  match r with
  | DeviceControl _ _ _ | CreateClose _ => true
  | _ => false
  end.

Definition arrivals (rs : list Request) : nat :=
  length (List.filter is_arrival rs).

(** Requests that follow an unload: a creation notification, a new wait
    request, another notification. *)
Definition after_unload_requests : list Request :=
  [ ProcessNotify 201 (Some short_event);
    DeviceControl 4%N IOCTL_CYBERION_GET_PROCESS_INFO zero_buffer;
    ProcessNotify 202 (Some long_event) ].

(** A driver about to be loaded: zeroed globals, nothing in the OS yet. *)
Definition fresh_load : LoadState :=
  mkLoadState initial_state (mkDRIVER_OBJECT None ∅) None no_objects.

(** Every call succeeds; the last one with a success status other than
    zero. *)
Definition replies_ok : OsReplies := mkOsReplies 0 77%N 0 0x40000000.

(** The device is created, the link name is taken
    (STATUS_OBJECT_NAME_COLLISION). *)
Definition replies_link_fails : OsReplies :=
  mkOsReplies 0 77%N 0xC0000035 0.




Definition is_unload (r : Request) : bool :=
  match r with
  | Unload => true
  | _ => false
  end.

(** A sequence of requests during which the driver stays loaded. *)
Definition stays_loaded (rs : list Request) : bool :=
  forallb (fun r => negb (is_unload r)) rs.

(** * Properties *)

(** ** Running the routines symbolically *)

Lemma send_is_not_get :
  (IOCTL_CYBERION_SEND_RESPONSE =? IOCTL_CYBERION_GET_PROCESS_INFO) = false.
Proof. reflexivity. Qed.

Lemma busy_is_not_pending : (STATUS_DEVICE_BUSY =? STATUS_PENDING) = false.
Proof. reflexivity. Qed.

Ltac crunch :=
  repeat first
    [ progress unfold bind, ret, get_PendingIrp, put_PendingIrp, assign,
        deref, IoCompleteRequest, IoMarkIrpPending, IoCancelIrp, os_call,
        KeAcquireInStackQueuedSpinLock, KeReleaseInStackQueuedSpinLock
    | progress cbn [g_PendingIrp g_IrpQueueLock irps completed os_calls
                    with_PendingIrp with_lock with_irps with_completed
                    with_os_calls]
    | rewrite lookup_insert_eq
    | rewrite insert_insert_eq
    | rewrite delete_insert_eq
    | rewrite Z.eqb_refl
    | rewrite send_is_not_get
    | rewrite busy_is_not_pending
    | match goal with
      | H : ?m !! ?t = _ |- context [?m !! ?t] => rewrite H
      end ].

Ltac open_state st :=
  destruct st as [? ? ? ? ?]; cbn in *; subst.

(** *** ProcessNotifyCallback *)

Lemma notify_waiter pid ci t i st :
  g_IrpQueueLock st = false ->
  g_PendingIrp st = Some t ->
  irps st !! t = Some i ->
  ProcessNotifyCallback pid (Some ci) st =
    Some (tt, mkKernelState None false (delete t (irps st))
                (completed st ++ [(t, fill pid ci i)]) (os_calls st)).
Proof.
  intros Hlock Hpend Hlive. open_state st.
  unfold ProcessNotifyCallback, fill, copy_length. crunch.
  destruct (CreateInfo.ImageFileName ci); crunch; reflexivity.
Qed.

Lemma notify_empty pid ci st :
  g_IrpQueueLock st = false ->
  g_PendingIrp st = None ->
  ProcessNotifyCallback pid (Some ci) st = Some (tt, st).
Proof.
  intros Hlock Hpend. open_state st.
  unfold ProcessNotifyCallback. crunch. reflexivity.
Qed.

Lemma notify_exit pid st : ProcessNotifyCallback pid None st = Some (tt, st).
Proof. reflexivity. Qed.

(** *** CyberionDeviceControl *)

Lemma control_wait_accepted a i st :
  g_IrpQueueLock st = false ->
  g_PendingIrp st = None ->
  irps st !! a = Some i ->
  IoControlCode i = IOCTL_CYBERION_GET_PROCESS_INFO ->
  CyberionDeviceControl a st =
    Some (STATUS_PENDING,
          mkKernelState (Some a) false
            (<[a := set_PendingReturned true i]> (irps st))
            (completed st) (os_calls st)).
Proof.
  intros Hlock Hpend Hlive Hcode. open_state st.
  unfold CyberionDeviceControl. crunch. rewrite Hcode. crunch. reflexivity.
Qed.

Lemma control_wait_busy a i t st :
  g_IrpQueueLock st = false ->
  g_PendingIrp st = Some t ->
  irps st !! a = Some i ->
  IoControlCode i = IOCTL_CYBERION_GET_PROCESS_INFO ->
  CyberionDeviceControl a st =
    Some (STATUS_DEVICE_BUSY,
          mkKernelState (Some t) false (delete a (irps st))
            (completed st ++ [(a, finish STATUS_DEVICE_BUSY i)])
            (os_calls st)).
Proof.
  intros Hlock Hpend Hlive Hcode. open_state st.
  unfold CyberionDeviceControl. crunch. rewrite Hcode. crunch. reflexivity.
Qed.

Lemma control_response a i st :
  irps st !! a = Some i ->
  IoControlCode i = IOCTL_CYBERION_SEND_RESPONSE ->
  CyberionDeviceControl a st =
    Some (STATUS_SUCCESS,
          mkKernelState (g_PendingIrp st) (g_IrpQueueLock st)
            (delete a (irps st))
            (completed st ++ [(a, finish STATUS_SUCCESS i)])
            (os_calls st)).
Proof.
  intros Hlive Hcode. open_state st.
  unfold CyberionDeviceControl. crunch. rewrite Hcode. crunch. reflexivity.
Qed.

Lemma control_other a i st :
  irps st !! a = Some i ->
  IoControlCode i <> IOCTL_CYBERION_GET_PROCESS_INFO ->
  IoControlCode i <> IOCTL_CYBERION_SEND_RESPONSE ->
  CyberionDeviceControl a st =
    Some (STATUS_INVALID_DEVICE_REQUEST,
          mkKernelState (g_PendingIrp st) (g_IrpQueueLock st)
            (delete a (irps st))
            (completed st ++ [(a, finish STATUS_INVALID_DEVICE_REQUEST i)])
            (os_calls st)).
Proof.
  intros Hlive Hget Hsend. open_state st.
  unfold CyberionDeviceControl. crunch.
  apply Z.eqb_neq in Hget, Hsend. rewrite Hget, Hsend. crunch. reflexivity.
Qed.

Lemma create_close a i st :
  irps st !! a = Some i ->
  CyberionCreateClose a st =
    Some (STATUS_SUCCESS,
          mkKernelState (g_PendingIrp st) (g_IrpQueueLock st)
            (delete a (irps st))
            (completed st ++ [(a, finish STATUS_SUCCESS i)])
            (os_calls st)).
Proof.
  intros Hlive. open_state st.
  unfold CyberionCreateClose. crunch. reflexivity.
Qed.

(** *** CyberionUnload *)

Lemma unload_empty st :
  g_PendingIrp st = None ->
  CyberionUnload st =
    Some (tt, with_os_calls (os_calls st ++ unload_calls) st).
Proof.
  intros Hpend. open_state st.
  unfold CyberionUnload, CancelPendingIrp, with_os_calls. crunch.
  now rewrite <- !app_assoc.
Qed.

Lemma unload_pending t i st :
  g_PendingIrp st = Some t ->
  irps st !! t = Some i ->
  CyberionUnload st =
    Some (tt, mkKernelState None (g_IrpQueueLock st)
                (<[t := set_Cancel true i]> (irps st))
                (completed st) (os_calls st ++ unload_calls)).
Proof.
  intros Hpend Hlive. open_state st.
  unfold CyberionUnload, CancelPendingIrp. crunch.
  destruct (CancelRoutine i) as [[]|]. crunch.
  now rewrite <- !app_assoc.
Qed.

(** ** Code units of byte buffers *)

Lemma wchars_firstn (k : nat) (l : list byte) :
  wchars (firstn (k + k) l) = firstn k (wchars l).
Proof.
  revert l. induction k as [|k IH]; intros l; [reflexivity|].
  rewrite Nat.add_succ_r.
  destruct l as [|lo [|hi r]]; cbn [Nat.add firstn wchars]; try reflexivity.
  now rewrite IH.
Qed.

Lemma wchars_skipn (k : nat) (l : list byte) :
  wchars (skipn (k + k) l) = skipn k (wchars l).
Proof.
  revert l. induction k as [|k IH]; intros l; [reflexivity|].
  rewrite Nat.add_succ_r.
  destruct l as [|lo [|hi r]]; cbn [Nat.add skipn wchars]; try reflexivity.
  apply IH.
Qed.

Lemma wchars_app (k : nat) (l1 l2 : list byte) :
  length l1 = (k + k)%nat -> wchars (l1 ++ l2) = wchars l1 ++ wchars l2.
Proof.
  revert l1. induction k as [|k IH]; intros l1 Hlen.
  - destruct l1; [reflexivity | discriminate].
  - rewrite Nat.add_succ_r in Hlen.
    destruct l1 as [|lo [|hi r]]; try discriminate.
    cbn [app wchars]. rewrite IH; [reflexivity|].
    cbn in Hlen. lia.
Qed.

(** A buffer of [n] bytes holds [n / 2] code units. *)
Lemma wchars_length_bounds (l : list byte) :
  (2 * length (wchars l) <= length l < 2 * length (wchars l) + 2)%nat.
Proof.
  assert (H : forall n (l : list byte), (length l <= n)%nat ->
            (2 * length (wchars l) <= length l
               < 2 * length (wchars l) + 2)%nat).
  { clear l. induction n as [|n IH]; intros l Hn.
    - destruct l; cbn in *; lia.
    - destruct l as [|lo [|hi r]]; cbn [wchars length] in *; try lia.
      specialize (IH r ltac:(lia)). lia. }
  apply (H (length l)). lia.
Qed.

Lemma valid_name_facts name :
  valid_UNICODE_STRING name = true ->
  exists m : nat,
    Z.to_nat (Length name) = (m + m)%nat
    /\ (m + m <= length (Buffer name))%nat
    /\ copied_units name = Nat.min m (Z.to_nat MAX_PATH_SIZE)
    /\ Z.to_nat (copy_length name) = (copied_units name + copied_units name)%nat.
Proof.
  unfold valid_UNICODE_STRING, copied_units, copy_length, MAX_PATH_SIZE,
    sizeof_WCHAR.
  rewrite !andb_true_iff, !Z.leb_le, Z.even_spec.
  intros [[[Hpos [q Hq]] Hmax] Hbuf].
  exists (Z.to_nat q). rewrite Hq in *.
  assert (Z.min (2 * q) (260 * 2) / 2 = Z.min q 260) as ->.
  { replace (Z.min (2 * q) (260 * 2)) with (Z.min q 260 * 2) by lia.
    apply Z.div_mul. lia. }
  repeat split; lia.
Qed.

(** What the copy leaves in the path field, in code units: the bounded
    source path, then the field's previous content from there on. *)
Lemma copy_units name (dst : list byte) :
  valid_UNICODE_STRING name = true ->
  wchars (RtlCopyMemory dst (Buffer name) (copy_length name)) =
    firstn (Z.to_nat MAX_PATH_SIZE) (path_of name)
      ++ skipn (copied_units name) (wchars dst)
  /\ length (firstn (Z.to_nat MAX_PATH_SIZE) (path_of name))
     = copied_units name.
Proof.
  intros Hv. destruct (valid_name_facts name Hv) as (m & HL & Hbuf & Hk & Hn).
  unfold RtlCopyMemory, path_of. rewrite Hn, HL.
  pose proof (wchars_length_bounds (Buffer name)) as Hb.
  assert (Hpre : firstn (Z.to_nat MAX_PATH_SIZE)
                   (wchars (firstn (m + m) (Buffer name)))
                 = wchars (firstn (copied_units name + copied_units name)
                             (Buffer name))).
  { rewrite !wchars_firstn, firstn_firstn. f_equal. lia. }
  rewrite Hpre. split.
  - rewrite (wchars_app (copied_units name)).
    + now rewrite wchars_skipn.
    + rewrite length_firstn. lia.
  - rewrite wchars_firstn, length_firstn. lia.
Qed.

(** ** The handoff *)


Lemma publish_empty pid ci st :
  g_IrpQueueLock st = false ->
  g_PendingIrp st = None ->
  publish pid ci st = Some (Dropped, st).
Proof.
  intros Hlock Hpend. unfold publish.
  rewrite (notify_empty pid ci st Hlock Hpend).
  now rewrite Nat.eqb_refl.
Qed.

Lemma publish_all_empty evs st :
  g_IrpQueueLock st = false ->
  g_PendingIrp st = None ->
  publish_all evs st = Some (repeat Dropped (length evs), st).
Proof.
  intros Hlock Hpend.
  induction evs as [|[pid ci] evs IH]; [reflexivity|].
  cbn [publish_all length repeat]. unfold bind at 1.
  rewrite (publish_empty pid ci st Hlock Hpend).
  unfold bind at 1. now rewrite IH.
Qed.

(** The path field of a filled IRP starts with the event's bounded path. *)
Lemma fill_path pid ci i :
  valid_name (CreateInfo.ImageFileName ci) = true ->
  firstn (length (event_path ci))
         (wchars (ImageFileName (SystemBuffer (fill pid ci i))))
  = event_path ci.
Proof.
  unfold event_path, fill, valid_name. cbn [SystemBuffer ImageFileName].
  destruct (CreateInfo.ImageFileName ci) as [name|]; [|reflexivity].
  intros Hv.
  destruct (copy_units name (ImageFileName (SystemBuffer i)) Hv) as [-> _].
  now rewrite firstn_app, Nat.sub_diag, firstn_all, firstn_O, app_nil_r.
Qed.


Section Delivery.

(** A creation notification [pid], [ci] arrives while the slot points to
    the live wait request [t]. *)
Variables (pid : HANDLE) (ci : PS_CREATE_NOTIFY_INFO).
Variables (t : PIRP) (i : IRP) (st : KernelState).
Hypothesis lock_free : g_IrpQueueLock st = false.
Hypothesis slot_holds_t : g_PendingIrp st = Some t.
Hypothesis t_is_live : irps st !! t = Some i.

Let delivered : KernelState :=
  mkKernelState None false (delete t (irps st))
    (completed st ++ [(t, fill pid ci i)]) (os_calls st).

Lemma publish_waiter : publish pid ci st = Some (Delivered, delivered).
Proof.
  unfold publish.
  rewrite (notify_waiter pid ci t i st lock_free slot_holds_t t_is_live).
  cbn [completed]. rewrite length_app. cbn [length].
  destruct (Nat.eqb_spec (length (completed st) + 1) (length (completed st)));
    [lia | reflexivity].
Qed.


(** C10.  On delivery the callback writes into the waiter's record the
    process id, the parent id and the first min(source length, 260) code
    units of the image path; the path field beyond them keeps its previous
    bytes, and without a source path the field is not written. *)
Theorem publish_writes_only_event_fields :
  valid_name (CreateInfo.ImageFileName ci) = true ->
  exists st' d,
    ProcessNotifyCallback pid (Some ci) st = Some (tt, st')
    /\ completed st' = completed st ++ [(t, d)]
    /\ ProcessId (SystemBuffer d) = pid
    /\ ParentProcessId (SystemBuffer d) = CreateInfo.ParentProcessId ci
    /\ match CreateInfo.ImageFileName ci with
       | Some name =>
           let n := Z.to_nat (copy_length name) in
           copied_units name
             = Nat.min (length (path_of name)) (Z.to_nat MAX_PATH_SIZE)
           /\ n = (2 * copied_units name)%nat
           /\ firstn n (ImageFileName (SystemBuffer d))
              = firstn n (Buffer name)
           /\ skipn n (ImageFileName (SystemBuffer d))
              = skipn n (ImageFileName (SystemBuffer i))
           /\ wchars (ImageFileName (SystemBuffer d))
              = firstn (copied_units name) (path_of name)
                  ++ skipn (copied_units name)
                       (wchars (ImageFileName (SystemBuffer i)))
       | None =>
           ImageFileName (SystemBuffer d) = ImageFileName (SystemBuffer i)
       end.
Proof.
  intros Hvalid. exists delivered, (fill pid ci i).
  split; [now apply notify_waiter|].
  split; [reflexivity|]. split; [reflexivity|]. split; [reflexivity|].
  unfold fill, valid_name in *. cbn [SystemBuffer ImageFileName].
  destruct (CreateInfo.ImageFileName ci) as [name|]; [|reflexivity].
  cbv zeta.
  destruct (valid_name_facts name Hvalid) as (m & HL & Hbuf & Hk & Hn).
  destruct (copy_units name (ImageFileName (SystemBuffer i)) Hvalid)
    as [Hunits Hlen].
  assert (Hpath : length (path_of name) = m).
  { unfold path_of. rewrite HL.
    rewrite wchars_firstn, length_firstn.
    pose proof (wchars_length_bounds (Buffer name)). lia. }
  assert (Hfull : length (firstn (Z.to_nat (copy_length name)) (Buffer name))
                  = Z.to_nat (copy_length name)).
  { rewrite length_firstn. lia. }
  split; [lia|]. split; [lia|].
  unfold RtlCopyMemory in *. split; [|split].
  - rewrite firstn_app, Hfull, Nat.sub_diag, firstn_O, app_nil_r.
    now rewrite firstn_firstn, Nat.min_id.
  - rewrite skipn_app, Hfull, Nat.sub_diag.
    rewrite (skipn_all2 (firstn _ _)) by lia. reflexivity.
  - rewrite Hunits. f_equal.
    rewrite Hk, Nat.min_comm, <- firstn_firstn.
    now rewrite <- Hpath, firstn_all.
Qed.

End Delivery.



Lemma publish_writes_only_event_fields_witness :
  exists st' d,
    ProcessNotifyCallback 200 (Some short_event) waiting_state
      = Some (tt, st')
    /\ completed st' = completed waiting_state ++ [(1%N, d)]
    /\ ProcessId (SystemBuffer d) = 200
    /\ ParentProcessId (SystemBuffer d) = 1
    /\ (copied_units short_name
          = Nat.min (length (path_of short_name)) (Z.to_nat MAX_PATH_SIZE)
        /\ Z.to_nat (copy_length short_name)
           = (2 * copied_units short_name)%nat
        /\ firstn (Z.to_nat (copy_length short_name))
                  (ImageFileName (SystemBuffer d))
           = firstn (Z.to_nat (copy_length short_name)) (Buffer short_name)
        /\ skipn (Z.to_nat (copy_length short_name))
                 (ImageFileName (SystemBuffer d))
           = skipn (Z.to_nat (copy_length short_name))
                   (ImageFileName stale_buffer)
        /\ wchars (ImageFileName (SystemBuffer d))
           = firstn (copied_units short_name) (path_of short_name)
               ++ skipn (copied_units short_name)
                    (wchars (ImageFileName stale_buffer))).
Proof.
  apply (publish_writes_only_event_fields 200 short_event 1%N
           (set_PendingReturned true
              (new_irp IOCTL_CYBERION_GET_PROCESS_INFO stale_buffer))
           waiting_state); reflexivity.
Defined.

(** C3.  While the slot is empty, every publish of a sequence returns
    Dropped and leaves the whole state as it was: the slot stays empty and
    nothing of the events is kept, so a wait request issued afterwards is
    left pending with its buffer untouched and nothing is handed back. *)
Theorem publish_without_waiter_drops
    (evs : list (HANDLE * PS_CREATE_NOTIFY_INFO)) (st : KernelState) :
  g_IrpQueueLock st = false ->
  g_PendingIrp st = None ->
  publish_all evs st = Some (repeat Dropped (length evs), st)
  /\ forall a i,
       irps st !! a = Some i ->
       IoControlCode i = IOCTL_CYBERION_GET_PROCESS_INFO ->
       exists st',
         (publish_all evs ;; CyberionDeviceControl a) st
           = Some (STATUS_PENDING, st')
         /\ g_PendingIrp st' = Some a
         /\ completed st' = completed st
         /\ SystemBuffer <$> irps st' !! a = Some (SystemBuffer i).
Proof.
  intros Hlock Hpend.
  pose proof (publish_all_empty evs st Hlock Hpend) as Hdrop.
  split; [exact Hdrop|].
  intros a i Hlive Hcode. eexists. split.
  - unfold bind. rewrite Hdrop.
    now apply (control_wait_accepted a i st).
  - cbn [g_PendingIrp completed irps]. repeat split.
    now rewrite lookup_insert_eq.
Qed.

Lemma publish_without_waiter_drops_witness :
  publish_all [(100, short_event); (101, long_event)] initial_state
    = Some ([Dropped; Dropped], initial_state)
  /\ forall a i,
       irps initial_state !! a = Some i ->
       IoControlCode i = IOCTL_CYBERION_GET_PROCESS_INFO ->
       exists st',
         (publish_all [(100, short_event); (101, long_event)] ;;
          CyberionDeviceControl a) initial_state
           = Some (STATUS_PENDING, st')
         /\ g_PendingIrp st' = Some a
         /\ completed st' = completed initial_state
         /\ SystemBuffer <$> irps st' !! a = Some (SystemBuffer i).
Proof.
  apply (publish_without_waiter_drops
           [(100, short_event); (101, long_event)] initial_state);
    reflexivity.
Defined.

(** C4.  With one wait request in the slot, a second wait request is
    completed on the spot with STATUS_DEVICE_BUSY, a failure status, and no
    output; the slot still points to the first request, whose contents are
    untouched. *)
Theorem second_wait_is_busy
    (a t : PIRP) (i w : IRP) (st : KernelState) :
  g_IrpQueueLock st = false ->
  g_PendingIrp st = Some t ->
  irps st !! t = Some w ->
  a <> t ->
  irps st !! a = Some i ->
  IoControlCode i = IOCTL_CYBERION_GET_PROCESS_INFO ->
  exists st' d,
    CyberionDeviceControl a st = Some (STATUS_DEVICE_BUSY, st')
    /\ NT_SUCCESS STATUS_DEVICE_BUSY = false
    /\ g_PendingIrp st' = Some t
    /\ irps st' !! t = Some w
    /\ irps st' !! a = None
    /\ completed st' = completed st ++ [(a, d)]
    /\ Status (IoStatus d) = STATUS_DEVICE_BUSY
    /\ Information (IoStatus d) = 0
    /\ SystemBuffer d = SystemBuffer i.
Proof.
  intros Hlock Hpend Hw Hne Hlive Hcode.
  eexists _, (finish STATUS_DEVICE_BUSY i).
  split; [apply (control_wait_busy a i t st); assumption|].
  cbn [g_PendingIrp irps completed].
  repeat split.
  - now rewrite lookup_delete_ne.
  - apply lookup_delete_eq.
Qed.

Lemma second_wait_is_busy_witness :
  exists st' d,
    CyberionDeviceControl 2%N second_wait_state
      = Some (STATUS_DEVICE_BUSY, st')
    /\ NT_SUCCESS STATUS_DEVICE_BUSY = false
    /\ g_PendingIrp st' = Some 1%N
    /\ irps st' !! 1%N
       = Some (set_PendingReturned true
                 (new_irp IOCTL_CYBERION_GET_PROCESS_INFO stale_buffer))
    /\ irps st' !! 2%N = None
    /\ completed st' = completed second_wait_state ++ [(2%N, d)]
    /\ Status (IoStatus d) = STATUS_DEVICE_BUSY
    /\ Information (IoStatus d) = 0
    /\ SystemBuffer d = stale_buffer.
Proof.
  apply (second_wait_is_busy 2%N 1%N
           (new_irp IOCTL_CYBERION_GET_PROCESS_INFO stale_buffer)
           (set_PendingReturned true
              (new_irp IOCTL_CYBERION_GET_PROCESS_INFO stale_buffer))
           second_wait_state);
    first [reflexivity | discriminate].
Defined.

(** C8.  A notification without creation info (a process exit) returns at
    once with the state exactly as it was, slot, pending request and its
    buffer included; not even the lock is taken.  The same holds for any
    run of exit notifications. *)
Theorem exit_notification_is_inert (pid : HANDLE) (st : KernelState) :
  ProcessNotifyCallback pid None st = Some (tt, st)
  /\ forall pids,
       run (map (fun p => ProcessNotify p None) pids) st = Some st.
Proof.
  split; [reflexivity|].
  intros pids. induction pids as [|p pids IH]; [reflexivity|].
  cbn [map run admissible arrive serve]. now rewrite notify_exit.
Qed.

(** ** The decision request *)

(** C9.  A SEND_RESPONSE request is completed with STATUS_SUCCESS and zero
    output whatever its buffer holds; the buffer is not modified, and the
    slot, the lock and every other live IRP stay as they were. *)
Theorem response_always_succeeds (a : PIRP) (i : IRP) (st : KernelState) :
  irps st !! a = Some i ->
  IoControlCode i = IOCTL_CYBERION_SEND_RESPONSE ->
  exists st' d,
    CyberionDeviceControl a st = Some (STATUS_SUCCESS, st')
    /\ completed st' = completed st ++ [(a, d)]
    /\ Status (IoStatus d) = STATUS_SUCCESS
    /\ Information (IoStatus d) = 0
    /\ SystemBuffer d = SystemBuffer i
    /\ g_PendingIrp st' = g_PendingIrp st
    /\ g_IrpQueueLock st' = g_IrpQueueLock st
    /\ irps st' = delete a (irps st).
Proof.
  intros Hlive Hcode. eexists _, (finish STATUS_SUCCESS i).
  split; [apply (control_response a i st); assumption|].
  cbn [g_PendingIrp g_IrpQueueLock irps completed]. repeat split.
Qed.

Lemma response_always_succeeds_witness :
  exists st' d,
    CyberionDeviceControl 5%N malformed_decision_state
      = Some (STATUS_SUCCESS, st')
    /\ completed st' = completed malformed_decision_state ++ [(5%N, d)]
    /\ Status (IoStatus d) = STATUS_SUCCESS
    /\ Information (IoStatus d) = 0
    /\ SystemBuffer d = malformed_decision
    /\ g_PendingIrp st' = Some 1%N
    /\ g_IrpQueueLock st' = false
    /\ irps st' = delete 5%N (irps malformed_decision_state).
Proof.
  apply (response_always_succeeds 5%N
           (new_irp IOCTL_CYBERION_SEND_RESPONSE malformed_decision)
           malformed_decision_state); reflexivity.
Defined.

(** C5, as the code has it.  The dispatcher does not look at the decision
    record: whether the record is well formed or not, the request is
    completed with STATUS_SUCCESS, a success status. *)
Theorem decision_acknowledged_unvalidated
    (a : PIRP) (i : IRP) (st : KernelState) (well_formed : bool) :
  irps st !! a = Some i ->
  IoControlCode i = IOCTL_CYBERION_SEND_RESPONSE ->
  well_formed_decision (as_USER_RESPONSE (SystemBuffer i)) = well_formed ->
  exists st' d,
    CyberionDeviceControl a st = Some (STATUS_SUCCESS, st')
    /\ completed st' = completed st ++ [(a, d)]
    /\ Status (IoStatus d) = STATUS_SUCCESS
    /\ NT_SUCCESS (Status (IoStatus d)) = true.
Proof.
  intros Hlive Hcode _. eexists _, (finish STATUS_SUCCESS i).
  split; [apply (control_response a i st); assumption|].
  cbn [completed]. repeat split.
Qed.

Lemma decision_acknowledged_unvalidated_witness :
  exists st' d,
    CyberionDeviceControl 5%N malformed_decision_state
      = Some (STATUS_SUCCESS, st')
    /\ completed st' = completed malformed_decision_state ++ [(5%N, d)]
    /\ Status (IoStatus d) = STATUS_SUCCESS
    /\ NT_SUCCESS (Status (IoStatus d)) = true.
Proof.
  apply (decision_acknowledged_unvalidated 5%N
           (new_irp IOCTL_CYBERION_SEND_RESPONSE malformed_decision)
           malformed_decision_state false); reflexivity.
Defined.

(** C5 as stated fails: a record with an unset process id and verdict 7 is
    not well formed, yet its request is completed with STATUS_SUCCESS. *)
Lemma malformed_decision_succeeds :
  well_formed_decision (as_USER_RESPONSE malformed_decision) = false
  /\ NT_SUCCESS STATUS_SUCCESS = true
  /\ exists st',
       CyberionDeviceControl 5%N malformed_decision_state
         = Some (STATUS_SUCCESS, st')
       /\ map (fun e => Status (IoStatus (snd e))) (completed st')
          = [STATUS_SUCCESS].
Proof.
  split; [reflexivity|]. split; [reflexivity|].
  eexists. split; reflexivity.
Qed.

(** ** Unload *)

(** C6, at a state with a pending wait request: the unload sets the
    request's cancel bit and empties the slot, but hands nothing back; the
    request stays live with its status untouched, never completed with
    STATUS_CANCELLED. *)
Theorem unload_leaves_waiter_uncompleted :
  exists st',
    CyberionUnload waiting_state = Some (tt, st')
    /\ g_PendingIrp st' = None
    /\ completed st' = []
    /\ irps st' !! 1%N
       = Some (set_Cancel true
                 (set_PendingReturned true
                    (new_irp IOCTL_CYBERION_GET_PROCESS_INFO stale_buffer)))
    /\ (Status <$> (IoStatus <$> irps st' !! 1%N)) <> Some STATUS_CANCELLED.
Proof.
  eexists. split; [reflexivity|]. repeat split. discriminate.
Qed.

(** ** The image path *)

(** What the copy does with a source path of more than [MAX_PATH_SIZE] code
    units when the path field has its declared size. *)
Lemma copy_long name (dst : list byte) :
  (Z.to_nat MAX_PATH_SIZE < length (path_of name))%nat ->
  length dst = Z.to_nat (MAX_PATH_SIZE * sizeof_WCHAR) ->
  RtlCopyMemory dst (Buffer name) (copy_length name)
    = firstn (Z.to_nat (MAX_PATH_SIZE * sizeof_WCHAR)) (Buffer name)
  /\ wchars (firstn (Z.to_nat (MAX_PATH_SIZE * sizeof_WCHAR)) (Buffer name))
     = firstn (Z.to_nat MAX_PATH_SIZE) (path_of name)
  /\ length (firstn (Z.to_nat MAX_PATH_SIZE) (path_of name))
     = Z.to_nat MAX_PATH_SIZE.
Proof.
  unfold path_of, RtlCopyMemory, copy_length, MAX_PATH_SIZE, sizeof_WCHAR.
  change (Z.to_nat (260 * 2)) with (260 + 260)%nat.
  change (Z.to_nat 260) with 260%nat.
  intros Hlong Hdst.
  pose proof (wchars_length_bounds
                (firstn (Z.to_nat (Length name)) (Buffer name))) as Hb.
  rewrite length_firstn in Hb.
  assert (HL : (522 <= Z.to_nat (Length name))%nat) by lia.
  replace (Z.to_nat (Z.min (Length name) (260 * 2))) with (260 + 260)%nat
    by lia.
  repeat split.
  - rewrite skipn_all2 by lia. apply app_nil_r.
  - rewrite <- (wchars_firstn 260), firstn_firstn. f_equal. f_equal. lia.
  - rewrite length_firstn. lia.
Qed.

(** C7.  A delivered event whose source image path has more than 260 code
    units leaves exactly the first 260 code units of that path in the
    delivered record, and two deliveries of the same event, to any two
    waiters whatever their buffers held before, deliver the same path. *)
Theorem long_path_is_truncated
    (pid : HANDLE) (ci : PS_CREATE_NOTIFY_INFO) (name : UNICODE_STRING)
    (t1 t2 : PIRP) (i1 i2 : IRP) (st1 st2 : KernelState) :
  CreateInfo.ImageFileName ci = Some name ->
  (Z.to_nat MAX_PATH_SIZE < length (path_of name))%nat ->
  g_IrpQueueLock st1 = false ->
  g_PendingIrp st1 = Some t1 ->
  irps st1 !! t1 = Some i1 ->
  length (ImageFileName (SystemBuffer i1))
    = Z.to_nat (MAX_PATH_SIZE * sizeof_WCHAR) ->
  g_IrpQueueLock st2 = false ->
  g_PendingIrp st2 = Some t2 ->
  irps st2 !! t2 = Some i2 ->
  length (ImageFileName (SystemBuffer i2))
    = Z.to_nat (MAX_PATH_SIZE * sizeof_WCHAR) ->
  exists st1' d1 st2' d2,
    publish pid ci st1 = Some (Delivered, st1')
    /\ completed st1' = completed st1 ++ [(t1, d1)]
    /\ publish pid ci st2 = Some (Delivered, st2')
    /\ completed st2' = completed st2 ++ [(t2, d2)]
    /\ wchars (ImageFileName (SystemBuffer d1))
       = firstn (Z.to_nat MAX_PATH_SIZE) (path_of name)
    /\ length (wchars (ImageFileName (SystemBuffer d1)))
       = Z.to_nat MAX_PATH_SIZE
    /\ ImageFileName (SystemBuffer d2) = ImageFileName (SystemBuffer d1).
Proof.
  intros Hname Hlong Hlock1 Hpend1 Hlive1 Hsize1 Hlock2 Hpend2 Hlive2 Hsize2.
  eexists _, (fill pid ci i1), _, (fill pid ci i2).
  split; [apply (publish_waiter pid ci t1 i1 st1); assumption|].
  split; [reflexivity|].
  split; [apply (publish_waiter pid ci t2 i2 st2); assumption|].
  split; [reflexivity|].
  unfold fill. cbn [SystemBuffer ImageFileName]. rewrite Hname.
  destruct (copy_long name _ Hlong Hsize1) as (-> & Hunits & Hlen).
  destruct (copy_long name _ Hlong Hsize2) as (-> & _ & _).
  rewrite Hunits. repeat split. exact Hlen.
Qed.

Lemma long_path_is_truncated_witness :
  exists st1' d1 st2' d2,
    publish 300 long_event waiting_state = Some (Delivered, st1')
    /\ completed st1' = completed waiting_state ++ [(1%N, d1)]
    /\ publish 300 long_event other_waiting_state = Some (Delivered, st2')
    /\ completed st2' = completed other_waiting_state ++ [(9%N, d2)]
    /\ wchars (ImageFileName (SystemBuffer d1))
       = firstn (Z.to_nat MAX_PATH_SIZE) (path_of long_name)
    /\ length (wchars (ImageFileName (SystemBuffer d1)))
       = Z.to_nat MAX_PATH_SIZE
    /\ ImageFileName (SystemBuffer d2) = ImageFileName (SystemBuffer d1).
Proof.
  apply (long_path_is_truncated 300 long_event long_name 1%N 9%N
           (set_PendingReturned true
              (new_irp IOCTL_CYBERION_GET_PROCESS_INFO stale_buffer))
           (set_PendingReturned true
              (new_irp IOCTL_CYBERION_GET_PROCESS_INFO zero_buffer))
           waiting_state other_waiting_state);
    first [reflexivity | vm_compute; lia].
Defined.

(** ** The single-slot invariant *)

Lemma single_slot_initial : single_slot initial_state.
Proof.
  unfold single_slot, initial_state. cbn. repeat split.
  - intros a i H. now rewrite lookup_empty in H.
  - discriminate.
Qed.

(** A request whose IRP is completed on the spot leaves the live IRPs as
    they were before it arrived. *)
Lemma delete_arrived (a : PIRP) (i : IRP) (m : gmap PIRP IRP) :
  m !! a = None -> delete a (<[a := i]> m) = m.
Proof. intros H. rewrite delete_insert_eq. now apply delete_id. Qed.

Lemma single_slot_same_mailbox st st' :
  single_slot st ->
  g_IrpQueueLock st' = g_IrpQueueLock st ->
  g_PendingIrp st' = g_PendingIrp st ->
  irps st' = irps st ->
  single_slot st'.
Proof.
  unfold single_slot. intros H Hl Hp Hm. now rewrite Hl, Hp, Hm.
Qed.

Lemma admissible_fresh r a st :
  (exists code buf, r = DeviceControl a code buf) \/ r = CreateClose a ->
  admissible r st = true -> irps st !! a = None.
Proof.
  intros [(code & buf & ->) | ->]; cbn;
    destruct (irps st !! a); congruence.
Qed.

Lemma control_preserves a code buf st :
  single_slot st ->
  irps st !! a = None ->
  exists s st',
    CyberionDeviceControl a
      (with_irps (<[a := new_irp code buf]> (irps st)) st) = Some (s, st')
    /\ single_slot st'.
Proof.
  intros Hinv Hfresh. pose proof Hinv as (Hlock & Huniq & Hslot).
  set (st1 := with_irps (<[a := new_irp code buf]> (irps st)) st).
  assert (Hlive : irps st1 !! a = Some (new_irp code buf))
    by apply lookup_insert_eq.
  assert (Hback : delete a (irps st1) = irps st)
    by (cbn; now apply delete_arrived).
  destruct (Z.eq_dec code IOCTL_CYBERION_GET_PROCESS_INFO) as [Hget|Hget].
  - destruct (g_PendingIrp st) as [t|] eqn:Hpend.
    + eexists _, _. split.
      * apply (control_wait_busy a (new_irp code buf) t st1);
          [exact Hlock | exact Hpend | exact Hlive | exact Hget].
      * apply (single_slot_same_mailbox st);
          [exact Hinv | cbn; congruence | cbn; congruence | exact Hback].
    + eexists _, _. split.
      * apply (control_wait_accepted a (new_irp code buf) st1);
          [exact Hlock | exact Hpend | exact Hlive | exact Hget].
      * cbn. rewrite insert_insert_eq. repeat split; cbn.
        -- intros b j Hb Hc. destruct (decide (a = b)) as [->|Hne];
             [reflexivity|].
           rewrite lookup_insert_ne in Hb by assumption.
           specialize (Huniq b j Hb Hc). congruence.
        -- intros t [= <-]. eexists. split; [apply lookup_insert_eq|].
           repeat split. exact Hget.
  - destruct (Z.eq_dec code IOCTL_CYBERION_SEND_RESPONSE) as [Hsend|Hsend].
    + eexists _, _. split.
      * apply (control_response a (new_irp code buf) st1);
          [exact Hlive | exact Hsend].
      * apply (single_slot_same_mailbox st);
          [exact Hinv | reflexivity | reflexivity | exact Hback].
    + eexists _, _. split.
      * apply (control_other a (new_irp code buf) st1);
          [exact Hlive | exact Hget | exact Hsend].
      * apply (single_slot_same_mailbox st);
          [exact Hinv | reflexivity | reflexivity | exact Hback].
Qed.

Lemma notify_preserves pid ci st :
  single_slot st ->
  exists st', ProcessNotifyCallback pid ci st = Some (tt, st')
              /\ single_slot st'.
Proof.
  intros Hinv. destruct ci as [ci|]; [|exists st; now split].
  pose proof Hinv as (Hlock & Huniq & Hslot).
  destruct (g_PendingIrp st) as [t|] eqn:Hpend.
  - destruct (Hslot t eq_refl) as (i & Hlive & _).
    eexists. split; [apply (notify_waiter pid ci t i st); assumption|].
    repeat split; cbn.
    + intros b j Hb Hc. destruct (decide (t = b)) as [->|Hne].
      * now rewrite lookup_delete_eq in Hb.
      * rewrite lookup_delete_ne in Hb by assumption.
        specialize (Huniq b j Hb Hc). congruence.
    + discriminate.
  - exists st. split; [now apply notify_empty | exact Hinv].
Qed.

Lemma unload_preserves st :
  single_slot st ->
  exists st', CyberionUnload st = Some (tt, st') /\ single_slot st'.
Proof.
  intros Hinv. pose proof Hinv as (Hlock & Huniq & Hslot).
  destruct (g_PendingIrp st) as [t|] eqn:Hpend.
  - destruct (Hslot t eq_refl) as (i & Hlive & _).
    eexists. split; [apply (unload_pending t i st); assumption|].
    repeat split; cbn.
    + exact Hlock.
    + intros b j Hb Hc. destruct (decide (t = b)) as [->|Hne].
      * rewrite lookup_insert_eq in Hb. injection Hb as <-. discriminate.
      * rewrite lookup_insert_ne in Hb by assumption.
        specialize (Huniq b j Hb Hc). congruence.
    + discriminate.
  - eexists. split; [now apply unload_empty|].
    apply (single_slot_same_mailbox st); [exact Hinv | | | ];
      destruct st; reflexivity || now cbn in *.
Qed.

(** Every admissible request is served to the end, and the invariant
    survives it. *)
Lemma serve_preserves r st :
  single_slot st ->
  admissible r st = true ->
  exists st', serve r (arrive r st) = Some (tt, st') /\ single_slot st'.
Proof.
  intros Hinv Hadm. destruct r as [a code buf | a | pid ci | ].
  - assert (Hfresh : irps st !! a = None)
      by (apply (admissible_fresh _ a st) in Hadm; eauto).
    destruct (control_preserves a code buf st Hinv Hfresh)
      as (s & st' & Hrun & Hinv').
    exists st'. split; [|exact Hinv'].
    cbn [serve arrive]. unfold bind. now rewrite Hrun.
  - assert (Hfresh : irps st !! a = None)
      by (apply (admissible_fresh _ a st) in Hadm; eauto).
    eexists. cbn [serve arrive]. unfold bind.
    rewrite (create_close a (new_irp 0 empty_buffer))
      by apply lookup_insert_eq.
    split; [reflexivity|].
    apply (single_slot_same_mailbox st);
      [exact Hinv | reflexivity | reflexivity | ].
    cbn. now apply delete_arrived.
  - now apply notify_preserves.
  - now apply unload_preserves.
Qed.

Lemma run_app rs rs' st :
  run (rs ++ rs') st
  = match run rs st with Some st' => run rs' st' | None => None end.
Proof.
  revert st. induction rs as [|r rs IH]; intros st; [reflexivity|].
  cbn [app run]. destruct (admissible r st); [|reflexivity].
  destruct (serve r (arrive r st)) as [[[] st']|]; [apply IH | reflexivity].
Qed.

Lemma run_preserves rs st st' :
  single_slot st -> run rs st = Some st' -> single_slot st'.
Proof.
  revert st. induction rs as [|r rs IH]; intros st Hinv Hrun.
  - cbn in Hrun. now injection Hrun as <-.
  - cbn [run] in Hrun. destruct (admissible r st) eqn:Hadm; [|discriminate].
    destruct (serve_preserves r st Hinv Hadm) as (st1 & Hserve & Hinv1).
    rewrite Hserve in Hrun. now apply (IH st1).
Qed.

(** C2.  In every state reached from the initial empty state by any
    sequence of requests (waits and other device controls, create/close,
    process notifications, unloads), the slot is empty or points to one
    live wait request; any two live requests that have not been cancelled
    are the same request, the one in the slot; and the driver serves every
    further admissible request to the end. *)
Theorem slot_holds_at_most_one_waiter
    (rs : list Request) (st : KernelState) :
  run rs initial_state = Some st ->
  single_slot st
  /\ (forall a b ia ib,
        irps st !! a = Some ia -> Cancel ia = false ->
        irps st !! b = Some ib -> Cancel ib = false ->
        a = b /\ g_PendingIrp st = Some a)
  /\ (g_PendingIrp st = None ->
        forall a ia, irps st !! a = Some ia -> Cancel ia = true)
  /\ (forall r, admissible r st = true ->
        exists st', run (rs ++ [r]) initial_state = Some st'
                    /\ single_slot st').
Proof.
  intros Hrun.
  assert (Hinv : single_slot st)
    by exact (run_preserves rs _ _ single_slot_initial Hrun).
  split; [exact Hinv|]. pose proof Hinv as (Hlock & Huniq & Hslot).
  split; [|split].
  - intros a b ia ib Ha Hca Hb Hcb.
    pose proof (Huniq a ia Ha Hca) as Hpa.
    pose proof (Huniq b ib Hb Hcb) as Hpb.
    split; [congruence | exact Hpa].
  - intros Hnone a ia Ha. destruct (Cancel ia) eqn:Hc; [reflexivity|].
    specialize (Huniq a ia Ha Hc). congruence.
  - intros r Hadm.
    destruct (serve_preserves r st Hinv Hadm) as (st' & Hserve & Hinv').
    exists st'. split; [|exact Hinv'].
    rewrite run_app, Hrun. cbn [run]. now rewrite Hadm, Hserve.
Qed.

Lemma slot_holds_at_most_one_waiter_witness :
  single_slot sample_state
  /\ (forall a b ia ib,
        irps sample_state !! a = Some ia -> Cancel ia = false ->
        irps sample_state !! b = Some ib -> Cancel ib = false ->
        a = b /\ g_PendingIrp sample_state = Some a)
  /\ (g_PendingIrp sample_state = None ->
        forall a ia, irps sample_state !! a = Some ia -> Cancel ia = true)
  /\ (forall r, admissible r sample_state = true ->
        exists st', run (sample_requests ++ [r]) initial_state = Some st'
                    /\ single_slot st').
Proof.
  apply (slot_holds_at_most_one_waiter sample_requests sample_state).
  vm_compute. reflexivity.
Defined.

(** * Further properties of the routines *)

(** ** The dispatcher *)

(** X1.  A device-control request whose code is neither of the driver's
    two IOCTLs is completed on the spot with STATUS_INVALID_DEVICE_REQUEST,
    a failure status, and no output; its buffer is not modified, and the
    slot, the lock and every other live IRP stay as they were. *)
Theorem unknown_code_is_rejected (a : PIRP) (i : IRP) (st : KernelState) :
  irps st !! a = Some i ->
  IoControlCode i <> IOCTL_CYBERION_GET_PROCESS_INFO ->
  IoControlCode i <> IOCTL_CYBERION_SEND_RESPONSE ->
  exists st' d,
    CyberionDeviceControl a st = Some (STATUS_INVALID_DEVICE_REQUEST, st')
    /\ NT_SUCCESS STATUS_INVALID_DEVICE_REQUEST = false
    /\ completed st' = completed st ++ [(a, d)]
    /\ Status (IoStatus d) = STATUS_INVALID_DEVICE_REQUEST
    /\ Information (IoStatus d) = 0
    /\ SystemBuffer d = SystemBuffer i
    /\ g_PendingIrp st' = g_PendingIrp st
    /\ g_IrpQueueLock st' = g_IrpQueueLock st
    /\ irps st' = delete a (irps st).
Proof.
  intros Hlive Hget Hsend.
  eexists _, (finish STATUS_INVALID_DEVICE_REQUEST i).
  split; [apply (control_other a i st); assumption|].
  cbn [g_PendingIrp g_IrpQueueLock irps completed]. repeat split.
Qed.

Lemma unknown_code_is_rejected_witness :
  exists st' d,
    CyberionDeviceControl 4%N unknown_code_state
      = Some (STATUS_INVALID_DEVICE_REQUEST, st')
    /\ NT_SUCCESS STATUS_INVALID_DEVICE_REQUEST = false
    /\ completed st' = completed unknown_code_state ++ [(4%N, d)]
    /\ Status (IoStatus d) = STATUS_INVALID_DEVICE_REQUEST
    /\ Information (IoStatus d) = 0
    /\ SystemBuffer d = zero_buffer
    /\ g_PendingIrp st' = Some 1%N
    /\ g_IrpQueueLock st' = false
    /\ irps st' = delete 4%N (irps unknown_code_state).
Proof.
  apply (unknown_code_is_rejected 4%N (new_irp 0x222000 zero_buffer)
           unknown_code_state); first [reflexivity | discriminate].
Defined.

(** X2.  A create or close request is completed with STATUS_SUCCESS and no
    output, and it does not touch the handoff: the slot still points to the
    same wait request and every other live IRP is unchanged, so closing a
    handle does not release a pending wait. *)
Theorem create_close_leaves_waiter (a : PIRP) (i : IRP) (st : KernelState) :
  irps st !! a = Some i ->
  exists st' d,
    CyberionCreateClose a st = Some (STATUS_SUCCESS, st')
    /\ completed st' = completed st ++ [(a, d)]
    /\ Status (IoStatus d) = STATUS_SUCCESS
    /\ Information (IoStatus d) = 0
    /\ g_PendingIrp st' = g_PendingIrp st
    /\ g_IrpQueueLock st' = g_IrpQueueLock st
    /\ (forall t, t <> a -> irps st' !! t = irps st !! t).
Proof.
  intros Hlive. eexists _, (finish STATUS_SUCCESS i).
  split; [apply (create_close a i st); assumption|].
  cbn [g_PendingIrp g_IrpQueueLock irps completed]. repeat split.
  intros t Hne. now rewrite lookup_delete_ne.
Qed.

Lemma create_close_leaves_waiter_witness :
  exists st' d,
    CyberionCreateClose 6%N close_state = Some (STATUS_SUCCESS, st')
    /\ completed st' = completed close_state ++ [(6%N, d)]
    /\ Status (IoStatus d) = STATUS_SUCCESS
    /\ Information (IoStatus d) = 0
    /\ g_PendingIrp st' = Some 1%N
    /\ g_IrpQueueLock st' = false
    /\ (forall t, t <> 6%N -> irps st' !! t = irps close_state !! t).
Proof.
  apply (create_close_leaves_waiter 6%N (new_irp 0 empty_buffer) close_state).
  reflexivity.
Defined.

(** X3.  A wait request that arrives while the slot is empty is accepted:
    the dispatcher returns STATUS_PENDING, stores the request in the slot and
    marks it pending, and hands nothing back; the request stays live with
    its buffer and status block as they were, and no other IRP changes. *)
Theorem wait_is_accepted (a : PIRP) (i : IRP) (st : KernelState) :
  g_IrpQueueLock st = false ->
  g_PendingIrp st = None ->
  irps st !! a = Some i ->
  IoControlCode i = IOCTL_CYBERION_GET_PROCESS_INFO ->
  exists st' w,
    CyberionDeviceControl a st = Some (STATUS_PENDING, st')
    /\ NT_SUCCESS STATUS_PENDING = true
    /\ g_PendingIrp st' = Some a
    /\ g_IrpQueueLock st' = false
    /\ completed st' = completed st
    /\ irps st' !! a = Some w
    /\ PendingReturned w = true
    /\ Cancel w = Cancel i
    /\ SystemBuffer w = SystemBuffer i
    /\ IoStatus w = IoStatus i
    /\ (forall t, t <> a -> irps st' !! t = irps st !! t).
Proof.
  intros Hlock Hpend Hlive Hcode.
  eexists _, (set_PendingReturned true i).
  split; [apply (control_wait_accepted a i st); assumption|].
  cbn [g_PendingIrp g_IrpQueueLock irps completed]. repeat split.
  - apply lookup_insert_eq.
  - intros t Hne. now rewrite lookup_insert_ne.
Qed.

Lemma wait_is_accepted_witness :
  exists st' w,
    CyberionDeviceControl 1%N first_wait_state = Some (STATUS_PENDING, st')
    /\ NT_SUCCESS STATUS_PENDING = true
    /\ g_PendingIrp st' = Some 1%N
    /\ g_IrpQueueLock st' = false
    /\ completed st' = completed first_wait_state
    /\ irps st' !! 1%N = Some w
    /\ PendingReturned w = true
    /\ Cancel w = false
    /\ SystemBuffer w = stale_buffer
    /\ IoStatus w = mkIO_STATUS_BLOCK 0 0
    /\ (forall t, t <> 1%N -> irps st' !! t = irps first_wait_state !! t).
Proof.
  apply (wait_is_accepted 1%N
           (new_irp IOCTL_CYBERION_GET_PROCESS_INFO stale_buffer)
           first_wait_state); reflexivity.
Defined.

Lemma driver_statuses_not_pending :
  STATUS_SUCCESS <> STATUS_PENDING
  /\ STATUS_DEVICE_BUSY <> STATUS_PENDING
  /\ STATUS_INVALID_DEVICE_REQUEST <> STATUS_PENDING.
Proof. repeat split; discriminate. Qed.

(** X4.  Whatever the control code, the status the dispatcher returns is
    the status it left in the request: either it returns STATUS_PENDING and
    the request is now the one in the slot, live and not handed back, or it
    returns another status and the request has been completed with exactly
    that status and no output.  The lock is free again afterwards and no
    other live IRP is touched. *)
Theorem returned_status_is_completion_status
    (a : PIRP) (i : IRP) (st : KernelState) :
  g_IrpQueueLock st = false ->
  irps st !! a = Some i ->
  exists s st',
    CyberionDeviceControl a st = Some (s, st')
    /\ g_IrpQueueLock st' = false
    /\ (forall t, t <> a -> irps st' !! t = irps st !! t)
    /\ ((s = STATUS_PENDING
         /\ g_PendingIrp st = None
         /\ g_PendingIrp st' = Some a
         /\ completed st' = completed st
         /\ irps st' !! a = Some (set_PendingReturned true i))
        \/ (s <> STATUS_PENDING
            /\ g_PendingIrp st' = g_PendingIrp st
            /\ irps st' !! a = None
            /\ exists d,
                 completed st' = completed st ++ [(a, d)]
                 /\ Status (IoStatus d) = s
                 /\ Information (IoStatus d) = 0
                 /\ SystemBuffer d = SystemBuffer i)).
Proof.
  intros Hlock Hlive.
  destruct driver_statuses_not_pending as (Hs & Hb & Hi).
  assert (Hframe : forall t, t <> a ->
            delete a (irps st) !! t = irps st !! t)
    by (intros t Hne; now rewrite lookup_delete_ne).
  destruct (Z.eq_dec (IoControlCode i) IOCTL_CYBERION_GET_PROCESS_INFO)
    as [Hget|Hget].
  - destruct (g_PendingIrp st) as [t|] eqn:Hpend.
    + eexists _, _.
      split; [apply (control_wait_busy a i t st); assumption|].
      cbn [g_PendingIrp g_IrpQueueLock irps completed].
      split; [reflexivity|]. split; [exact Hframe|]. right.
      split; [exact Hb|]. split; [reflexivity|].
      split; [apply lookup_delete_eq|].
      exists (finish STATUS_DEVICE_BUSY i). repeat split.
    + eexists _, _.
      split; [apply (control_wait_accepted a i st); assumption|].
      cbn [g_PendingIrp g_IrpQueueLock irps completed].
      split; [reflexivity|].
      split; [intros t Hne; now rewrite lookup_insert_ne|]. left.
      repeat split. apply lookup_insert_eq.
  - destruct (Z.eq_dec (IoControlCode i) IOCTL_CYBERION_SEND_RESPONSE)
      as [Hsend|Hsend].
    + eexists _, _.
      split; [apply (control_response a i st); assumption|].
      cbn [g_PendingIrp g_IrpQueueLock irps completed].
      split; [exact Hlock|]. split; [exact Hframe|]. right.
      split; [exact Hs|]. split; [reflexivity|].
      split; [apply lookup_delete_eq|].
      exists (finish STATUS_SUCCESS i). repeat split.
    + eexists _, _.
      split; [apply (control_other a i st); assumption|].
      cbn [g_PendingIrp g_IrpQueueLock irps completed].
      split; [exact Hlock|]. split; [exact Hframe|]. right.
      split; [exact Hi|]. split; [reflexivity|].
      split; [apply lookup_delete_eq|].
      exists (finish STATUS_INVALID_DEVICE_REQUEST i). repeat split.
Qed.

Lemma returned_status_is_completion_status_witness :
  exists s st',
    CyberionDeviceControl 2%N second_wait_state = Some (s, st')
    /\ g_IrpQueueLock st' = false
    /\ (forall t, t <> 2%N -> irps st' !! t = irps second_wait_state !! t)
    /\ ((s = STATUS_PENDING
         /\ g_PendingIrp second_wait_state = None
         /\ g_PendingIrp st' = Some 2%N
         /\ completed st' = completed second_wait_state
         /\ irps st' !! 2%N
            = Some (set_PendingReturned true
                      (new_irp IOCTL_CYBERION_GET_PROCESS_INFO stale_buffer)))
        \/ (s <> STATUS_PENDING
            /\ g_PendingIrp st' = g_PendingIrp second_wait_state
            /\ irps st' !! 2%N = None
            /\ exists d,
                 completed st' = completed second_wait_state ++ [(2%N, d)]
                 /\ Status (IoStatus d) = s
                 /\ Information (IoStatus d) = 0
                 /\ SystemBuffer d = stale_buffer)).
Proof.
  apply (returned_status_is_completion_status 2%N
           (new_irp IOCTL_CYBERION_GET_PROCESS_INFO stale_buffer)
           second_wait_state); reflexivity.
Defined.

(** X5.  The slot is reusable: from an empty slot, a wait request, then a
    creation notification, then a second wait request leave the first
    request completed with the event and the second one accepted and
    waiting in the slot. *)
Theorem slot_is_reusable_after_delivery
    (a b : PIRP) (ia ib : IRP) (pid : HANDLE) (ci : PS_CREATE_NOTIFY_INFO)
    (st : KernelState) :
  g_IrpQueueLock st = false ->
  g_PendingIrp st = None ->
  irps st !! a = Some ia ->
  irps st !! b = Some ib ->
  a <> b ->
  IoControlCode ia = IOCTL_CYBERION_GET_PROCESS_INFO ->
  IoControlCode ib = IOCTL_CYBERION_GET_PROCESS_INFO ->
  exists st' d,
    (CyberionDeviceControl a ;;
     ProcessNotifyCallback pid (Some ci) ;;
     CyberionDeviceControl b) st = Some (STATUS_PENDING, st')
    /\ g_PendingIrp st' = Some b
    /\ g_IrpQueueLock st' = false
    /\ completed st' = completed st ++ [(a, d)]
    /\ Status (IoStatus d) = STATUS_SUCCESS
    /\ ProcessId (SystemBuffer d) = pid
    /\ ParentProcessId (SystemBuffer d) = CreateInfo.ParentProcessId ci
    /\ irps st' !! a = None
    /\ irps st' !! b = Some (set_PendingReturned true ib).
Proof.
  intros Hlock Hpend Ha Hb Hne Hca Hcb.
  eexists _, (fill pid ci (set_PendingReturned true ia)).
  split.
  - unfold bind at 1.
    rewrite (control_wait_accepted a ia st Hlock Hpend Ha Hca).
    unfold bind at 1.
    erewrite notify_waiter;
      [ | reflexivity | reflexivity | apply lookup_insert_eq ].
    cbn [irps completed os_calls].
    apply (control_wait_accepted b ib); [reflexivity | reflexivity | | exact Hcb].
    cbn [irps]. now rewrite lookup_delete_ne, lookup_insert_ne.
  - cbn [g_PendingIrp g_IrpQueueLock irps completed]. repeat split.
    + rewrite lookup_insert_ne by congruence. apply lookup_delete_eq.
    + apply lookup_insert_eq.
Qed.

Lemma slot_is_reusable_after_delivery_witness :
  exists st' d,
    (CyberionDeviceControl 1%N ;;
     ProcessNotifyCallback 200 (Some short_event) ;;
     CyberionDeviceControl 2%N) two_waits_state = Some (STATUS_PENDING, st')
    /\ g_PendingIrp st' = Some 2%N
    /\ g_IrpQueueLock st' = false
    /\ completed st' = completed two_waits_state ++ [(1%N, d)]
    /\ Status (IoStatus d) = STATUS_SUCCESS
    /\ ProcessId (SystemBuffer d) = 200
    /\ ParentProcessId (SystemBuffer d) = 1
    /\ irps st' !! 1%N = None
    /\ irps st' !! 2%N
       = Some (set_PendingReturned true
                 (new_irp IOCTL_CYBERION_GET_PROCESS_INFO zero_buffer)).
Proof.
  apply (slot_is_reusable_after_delivery 1%N 2%N
           (new_irp IOCTL_CYBERION_GET_PROCESS_INFO stale_buffer)
           (new_irp IOCTL_CYBERION_GET_PROCESS_INFO zero_buffer)
           200 short_event two_waits_state);
    first [reflexivity | discriminate].
Defined.

(** ** The copy and the bounds of the path field *)

(** X6.  However long the source path is, the copy stays inside the path
    field: after a delivery the field still has its declared 520 bytes,
    260 code units. *)
Theorem copy_stays_within_path_field
    (pid : HANDLE) (ci : PS_CREATE_NOTIFY_INFO) (t : PIRP) (i : IRP)
    (st : KernelState) :
  g_IrpQueueLock st = false ->
  g_PendingIrp st = Some t ->
  irps st !! t = Some i ->
  valid_name (CreateInfo.ImageFileName ci) = true ->
  length (ImageFileName (SystemBuffer i))
    = Z.to_nat (MAX_PATH_SIZE * sizeof_WCHAR) ->
  exists st' d,
    ProcessNotifyCallback pid (Some ci) st = Some (tt, st')
    /\ completed st' = completed st ++ [(t, d)]
    /\ length (ImageFileName (SystemBuffer d))
       = Z.to_nat (MAX_PATH_SIZE * sizeof_WCHAR)
    /\ length (wchars (ImageFileName (SystemBuffer d)))
       = Z.to_nat MAX_PATH_SIZE.
Proof.
  intros Hlock Hpend Hlive Hvalid Hsize.
  eexists _, (fill pid ci i).
  split; [apply (notify_waiter pid ci t i st); assumption|].
  split; [reflexivity|].
  assert (Hlen : length (ImageFileName (SystemBuffer (fill pid ci i)))
                 = Z.to_nat (MAX_PATH_SIZE * sizeof_WCHAR)).
  { unfold fill, valid_name in *. cbn [SystemBuffer ImageFileName].
    destruct (CreateInfo.ImageFileName ci) as [name|]; [|exact Hsize].
    destruct (valid_name_facts name Hvalid) as (m & HL & Hbuf & Hk & Hn).
    unfold RtlCopyMemory. rewrite length_app, length_firstn, length_skipn.
    unfold MAX_PATH_SIZE, sizeof_WCHAR in *. lia. }
  split; [exact Hlen|].
  pose proof (wchars_length_bounds
                (ImageFileName (SystemBuffer (fill pid ci i)))) as Hb.
  rewrite Hlen in Hb. unfold MAX_PATH_SIZE, sizeof_WCHAR in *. lia.
Qed.

Lemma copy_stays_within_path_field_witness :
  exists st' d,
    ProcessNotifyCallback 300 (Some long_event) waiting_state
      = Some (tt, st')
    /\ completed st' = completed waiting_state ++ [(1%N, d)]
    /\ length (ImageFileName (SystemBuffer d))
       = Z.to_nat (MAX_PATH_SIZE * sizeof_WCHAR)
    /\ length (wchars (ImageFileName (SystemBuffer d)))
       = Z.to_nat MAX_PATH_SIZE.
Proof.
  apply (copy_stays_within_path_field 300 long_event 1%N
           (set_PendingReturned true
              (new_irp IOCTL_CYBERION_GET_PROCESS_INFO stale_buffer))
           waiting_state); reflexivity.
Defined.

(** ** Unload *)

(** X7.  The unload never hands a request back: it issues its three OS
    calls in the order remove-callback, delete-link, delete-device, empties
    the slot and leaves the completion log and the lock alone.  Only the
    request the slot pointed to is touched; with an empty slot no IRP
    changes at all. *)
Theorem unload_completes_nothing (st : KernelState) :
  (forall t, g_PendingIrp st = Some t -> is_Some (irps st !! t)) ->
  exists st',
    CyberionUnload st = Some (tt, st')
    /\ g_PendingIrp st' = None
    /\ g_IrpQueueLock st' = g_IrpQueueLock st
    /\ completed st' = completed st
    /\ os_calls st'
       = os_calls st
           ++ [RemoveProcessNotifyRoutine; DeleteSymbolicLink; DeleteDevice]
    /\ (g_PendingIrp st = None -> irps st' = irps st)
    /\ (forall b, g_PendingIrp st <> Some b -> irps st' !! b = irps st !! b).
Proof.
  intros Hslot. destruct (g_PendingIrp st) as [t|] eqn:Hpend.
  - destruct (Hslot t eq_refl) as [i Hlive].
    eexists. split; [apply (unload_pending t i st); assumption|].
    cbn [g_PendingIrp g_IrpQueueLock irps completed os_calls].
    repeat split; [discriminate|].
    intros b Hne. rewrite lookup_insert_ne; congruence.
  - eexists. split; [now apply unload_empty|].
    destruct st; cbn in *. subst. repeat split.
Qed.

Lemma unload_completes_nothing_witness :
  exists st',
    CyberionUnload waiting_state = Some (tt, st')
    /\ g_PendingIrp st' = None
    /\ g_IrpQueueLock st' = false
    /\ completed st' = []
    /\ os_calls st'
       = [RemoveProcessNotifyRoutine; DeleteSymbolicLink; DeleteDevice]
    /\ (g_PendingIrp waiting_state = None -> irps st' = irps waiting_state)
    /\ (forall b, g_PendingIrp waiting_state <> Some b ->
                  irps st' !! b = irps waiting_state !! b).
Proof.
  apply (unload_completes_nothing waiting_state).
  intros t [= <-]. eexists. reflexivity.
Defined.

(** ** Runs of requests *)

Lemma size_delete_live (t : PIRP) (i : IRP) (m : gmap PIRP IRP) :
  m !! t = Some i -> size m = S (size (delete t m)).
Proof.
  intros H. rewrite <- (insert_delete_id m t i H) at 1.
  apply map_size_insert_None, lookup_delete_eq.
Qed.

(** What one served request does to the books: an arriving IRP is either
    handed back or kept, cancelled IRPs are left where they are, and the
    log of OS calls only grows. *)
Lemma serve_step r st :
  single_slot st ->
  admissible r st = true ->
  exists st',
    serve r (arrive r st) = Some (tt, st')
    /\ single_slot st'
    /\ (length (completed st') + size (irps st')
        = length (completed st) + size (irps st)
          + (if is_arrival r then 1 else 0))%nat
    /\ (forall b j, irps st !! b = Some j -> Cancel j = true ->
                    irps st' !! b = Some j)
    /\ (exists l, os_calls st' = os_calls st ++ l).
Proof.
  intros Hinv Hadm.
  destruct (serve_preserves r st Hinv Hadm) as (st' & Hserve & Hinv').
  exists st'. split; [exact Hserve|]. split; [exact Hinv'|].
  pose proof Hinv as (Hlock & Huniq & Hslot).
  assert (Hkept : forall a x (m : gmap PIRP IRP), m !! a = None ->
            forall b j, m !! b = Some j ->
                        delete a (<[a := x]> m) !! b = Some j)
    by (intros a x m Hm b j Hb; now rewrite delete_arrived).
  destruct r as [a code buf | a | pid ci | ].
  - assert (Hfresh : irps st !! a = None)
      by (apply (admissible_fresh _ a st) in Hadm; eauto).
    cbn [serve arrive is_arrival] in *. unfold bind in Hserve.
    set (st1 := with_irps (<[a := new_irp code buf]> (irps st)) st) in *.
    assert (Hlive : irps st1 !! a = Some (new_irp code buf))
      by apply lookup_insert_eq.
    assert (Hdone : forall s d,
              CyberionDeviceControl a st1 =
                Some (s, mkKernelState (g_PendingIrp st1) (g_IrpQueueLock st1)
                           (delete a (irps st1)) (completed st1 ++ [d])
                           (os_calls st1)) ->
              (length (completed st') + size (irps st')
               = length (completed st) + size (irps st) + 1)%nat
              /\ (forall b j, irps st !! b = Some j -> Cancel j = true ->
                              irps st' !! b = Some j)
              /\ (exists l, os_calls st' = os_calls st ++ l)).
    { intros s d Heq. rewrite Heq in Hserve. cbn in Hserve.
      injection Hserve as <-. cbn [completed irps os_calls].
      rewrite length_app. cbn [length].
      rewrite (delete_arrived a _ (irps st) Hfresh).
      split; [lia|]. split; [now intros b j Hb _|].
      exists []. now rewrite app_nil_r. }
    destruct (Z.eq_dec code IOCTL_CYBERION_GET_PROCESS_INFO) as [Hget|Hget].
    + destruct (g_PendingIrp st) as [t|] eqn:Hpend.
      * apply (Hdone STATUS_DEVICE_BUSY
                 (a, finish STATUS_DEVICE_BUSY (new_irp code buf))).
        rewrite (control_wait_busy a (new_irp code buf) t st1 Hlock Hpend
                   Hlive Hget).
        subst st1. cbn. now rewrite Hpend, Hlock.
      * rewrite (control_wait_accepted a (new_irp code buf) st1 Hlock Hpend
                   Hlive Hget) in Hserve.
        cbn in Hserve. injection Hserve as <-. cbn [completed irps os_calls].
        rewrite insert_insert_eq, (map_size_insert_None _ _ _ Hfresh).
        split; [lia|]. split.
        -- intros b j Hb _. rewrite lookup_insert_ne; congruence.
        -- exists []. now rewrite app_nil_r.
    + destruct (Z.eq_dec code IOCTL_CYBERION_SEND_RESPONSE) as [Hsend|Hsend].
      * apply (Hdone STATUS_SUCCESS
                 (a, finish STATUS_SUCCESS (new_irp code buf))).
        now rewrite (control_response a (new_irp code buf) st1 Hlive Hsend).
      * apply (Hdone STATUS_INVALID_DEVICE_REQUEST
                 (a, finish STATUS_INVALID_DEVICE_REQUEST (new_irp code buf))).
        now rewrite (control_other a (new_irp code buf) st1 Hlive Hget Hsend).
  - assert (Hfresh : irps st !! a = None)
      by (apply (admissible_fresh _ a st) in Hadm; eauto).
    cbn [serve arrive is_arrival] in *. unfold bind in Hserve.
    rewrite (create_close a (new_irp 0 empty_buffer)) in Hserve
      by apply lookup_insert_eq.
    cbn in Hserve. injection Hserve as <-. cbn [completed irps os_calls].
    rewrite length_app. cbn [length].
    rewrite (delete_arrived a _ (irps st) Hfresh).
    split; [lia|]. split; [now intros b j Hb _|].
    exists []. now rewrite app_nil_r.
  - cbn [serve arrive is_arrival] in *.
    destruct ci as [ci|].
    + destruct (g_PendingIrp st) as [t|] eqn:Hpend.
      * destruct (Hslot t eq_refl) as (i & Hlive & Hc & _).
        rewrite (notify_waiter pid ci t i st Hlock Hpend Hlive) in Hserve.
        injection Hserve as <-. cbn [completed irps os_calls].
        rewrite length_app, (size_delete_live t i (irps st) Hlive).
        cbn [length]. split; [lia|]. split.
        -- intros b j Hb Hcj. rewrite lookup_delete_ne; [exact Hb|].
           intros ->. congruence.
        -- exists []. now rewrite app_nil_r.
      * rewrite (notify_empty pid ci st Hlock Hpend) in Hserve.
        injection Hserve as <-. split; [lia|]. split; [now intros|].
        exists []. now rewrite app_nil_r.
    + rewrite notify_exit in Hserve. injection Hserve as <-.
      split; [lia|]. split; [now intros|].
      exists []. now rewrite app_nil_r.
  - cbn [serve arrive is_arrival] in *.
    destruct (g_PendingIrp st) as [t|] eqn:Hpend.
    + destruct (Hslot t eq_refl) as (i & Hlive & Hc & _).
      rewrite (unload_pending t i st Hpend Hlive) in Hserve.
      injection Hserve as <-. cbn [completed irps os_calls].
      rewrite map_size_insert_Some by eauto.
      split; [lia|]. split.
      * intros b j Hb Hcj. rewrite lookup_insert_ne; [exact Hb|].
        intros ->. congruence.
      * now exists unload_calls.
    + rewrite (unload_empty st Hpend) in Hserve.
      injection Hserve as <-. unfold with_os_calls.
      cbn [completed irps os_calls].
      split; [lia|]. split; [now intros|]. now exists unload_calls.
Qed.

Lemma run_steps rs st st' :
  single_slot st ->
  run rs st = Some st' ->
  single_slot st'
  /\ (length (completed st') + size (irps st')
      = length (completed st) + size (irps st) + arrivals rs)%nat
  /\ (forall b j, irps st !! b = Some j -> Cancel j = true ->
                  irps st' !! b = Some j)
  /\ (exists l, os_calls st' = os_calls st ++ l).
Proof.
  revert st. induction rs as [|r rs IH]; intros st Hinv Hrun.
  - cbn in Hrun. injection Hrun as <-. unfold arrivals. cbn.
    split; [exact Hinv|]. split; [lia|]. split; [now intros|].
    exists []. now rewrite app_nil_r.
  - cbn [run] in Hrun. destruct (admissible r st) eqn:Hadm; [|discriminate].
    destruct (serve_step r st Hinv Hadm)
      as (st1 & Hserve & Hinv1 & Hcount1 & Hkeep1 & (l1 & Hlog1)).
    rewrite Hserve in Hrun.
    destruct (IH st1 Hinv1 Hrun) as (Hinv' & Hcount & Hkeep & (l & Hlog)).
    split; [exact Hinv'|]. split; [|split].
    + unfold arrivals in *. cbn [List.filter].
      destruct (is_arrival r); cbn [length]; lia.
    + intros b j Hb Hc. apply Hkeep; [now apply Hkeep1 | exact Hc].
    + exists (l1 ++ l). now rewrite Hlog, Hlog1, app_assoc.
Qed.

(** While the driver stays loaded no IRP is ever cancelled. *)
Lemma serve_keeps_uncancelled r st st' :
  single_slot st ->
  (forall a i, irps st !! a = Some i -> Cancel i = false) ->
  admissible r st = true ->
  is_unload r = false ->
  serve r (arrive r st) = Some (tt, st') ->
  forall a i, irps st' !! a = Some i -> Cancel i = false.
Proof.
  intros Hinv Hclean Hadm Hload Hserve.
  pose proof Hinv as (Hlock & Huniq & Hslot).
  destruct r as [a code buf | a | pid ci | ]; [ | | | discriminate].
  - assert (Hfresh : irps st !! a = None)
      by (apply (admissible_fresh _ a st) in Hadm; eauto).
    cbn [serve arrive] in Hserve. unfold bind in Hserve.
    set (st1 := with_irps (<[a := new_irp code buf]> (irps st)) st) in *.
    assert (Hlive : irps st1 !! a = Some (new_irp code buf))
      by apply lookup_insert_eq.
    assert (Hback : delete a (irps st1) = irps st)
      by (cbn; now apply delete_arrived).
    destruct (Z.eq_dec code IOCTL_CYBERION_GET_PROCESS_INFO) as [Hget|Hget].
    + destruct (g_PendingIrp st) as [t|] eqn:Hpend.
      * rewrite (control_wait_busy a (new_irp code buf) t st1 Hlock Hpend
                   Hlive Hget) in Hserve.
        cbn in Hserve. injection Hserve as <-. cbn [irps].
        rewrite delete_arrived by exact Hfresh. exact Hclean.
      * rewrite (control_wait_accepted a (new_irp code buf) st1 Hlock Hpend
                   Hlive Hget) in Hserve.
        cbn in Hserve. injection Hserve as <-. cbn [irps].
        intros b j Hb. destruct (decide (a = b)) as [->|Hne].
        -- rewrite lookup_insert_eq in Hb. now injection Hb as <-.
        -- rewrite !lookup_insert_ne in Hb by exact Hne.
           now apply (Hclean b).
    + destruct (Z.eq_dec code IOCTL_CYBERION_SEND_RESPONSE) as [Hsend|Hsend].
      * rewrite (control_response a (new_irp code buf) st1 Hlive Hsend)
          in Hserve.
        cbn in Hserve. injection Hserve as <-. cbn [irps].
        rewrite delete_arrived by exact Hfresh. exact Hclean.
      * rewrite (control_other a (new_irp code buf) st1 Hlive Hget Hsend)
          in Hserve.
        cbn in Hserve. injection Hserve as <-. cbn [irps].
        rewrite delete_arrived by exact Hfresh. exact Hclean.
  - assert (Hfresh : irps st !! a = None)
      by (apply (admissible_fresh _ a st) in Hadm; eauto).
    cbn [serve arrive] in Hserve. unfold bind in Hserve.
    rewrite (create_close a (new_irp 0 empty_buffer)) in Hserve
      by apply lookup_insert_eq.
    cbn in Hserve. injection Hserve as <-. cbn [irps].
    rewrite delete_arrived by exact Hfresh. exact Hclean.
  - cbn [serve arrive] in Hserve. destruct ci as [ci|].
    + destruct (g_PendingIrp st) as [t|] eqn:Hpend.
      * destruct (Hslot t eq_refl) as (i & Hlive & _).
        rewrite (notify_waiter pid ci t i st Hlock Hpend Hlive) in Hserve.
        injection Hserve as <-. cbn [irps].
        intros b j Hb. destruct (decide (t = b)) as [->|Hne].
        -- now rewrite lookup_delete_eq in Hb.
        -- rewrite lookup_delete_ne in Hb by exact Hne.
           now apply (Hclean b).
      * rewrite (notify_empty pid ci st Hlock Hpend) in Hserve.
        now injection Hserve as <-.
    + rewrite notify_exit in Hserve. now injection Hserve as <-.
Qed.

Lemma run_keeps_uncancelled rs st st' :
  single_slot st ->
  (forall a i, irps st !! a = Some i -> Cancel i = false) ->
  stays_loaded rs = true ->
  run rs st = Some st' ->
  forall a i, irps st' !! a = Some i -> Cancel i = false.
Proof.
  revert st. induction rs as [|r rs IH]; intros st Hinv Hclean Hload Hrun.
  - cbn in Hrun. now injection Hrun as <-.
  - cbn [stays_loaded forallb] in Hload.
    apply andb_true_iff in Hload as [Hr Hrs].
    apply negb_true_iff in Hr.
    cbn [run] in Hrun. destruct (admissible r st) eqn:Hadm; [|discriminate].
    destruct (serve_preserves r st Hinv Hadm) as (st1 & Hserve & Hinv1).
    rewrite Hserve in Hrun.
    apply (IH st1 Hinv1); [ | exact Hrs | exact Hrun].
    exact (serve_keeps_uncancelled r st st1 Hinv Hclean Hadm Hr Hserve).
Qed.

(** X8.  While the driver stays loaded, every request is either handed
    back or is the one waiter: after any sequence of device-control,
    create/close and process-notification requests from the initial state,
    the only IRP the driver still holds is the one the slot points to, and
    the requests that brought an IRP are as many as the IRPs handed back,
    plus one if a waiter is pending. *)
Theorem every_request_is_completed_or_waiting
    (rs : list Request) (st : KernelState) :
  stays_loaded rs = true ->
  run rs initial_state = Some st ->
  (forall a i, irps st !! a = Some i -> g_PendingIrp st = Some a)
  /\ arrivals rs
     = (length (completed st)
        + match g_PendingIrp st with Some _ => 1 | None => 0 end)%nat.
Proof.
  intros Hload Hrun.
  destruct (run_steps rs _ _ single_slot_initial Hrun)
    as ((Hlock & Huniq & Hslot) & Hcount & _).
  assert (Hclean : forall a i, irps st !! a = Some i -> Cancel i = false).
  { apply (run_keeps_uncancelled rs initial_state st single_slot_initial);
      [ | exact Hload | exact Hrun].
    intros a i H. unfold initial_state in H. cbn [irps] in H.
    now rewrite lookup_empty in H. }
  assert (Hheld : forall a i, irps st !! a = Some i ->
                              g_PendingIrp st = Some a)
    by (intros a i Ha; exact (Huniq a i Ha (Hclean a i Ha))).
  split; [exact Hheld|].
  cbn in Hcount. rewrite map_size_empty in Hcount.
  destruct (g_PendingIrp st) as [t|] eqn:Hpend.
  - destruct (Hslot t eq_refl) as (i & Hlive & _).
    assert (Hone : irps st = {[ t := i ]}).
    { apply map_eq. intros b. destruct (decide (t = b)) as [<-|Hne].
      - now rewrite lookup_singleton_eq.
      - rewrite lookup_singleton_ne by exact Hne.
        destruct (irps st !! b) as [j|] eqn:Hb; [|reflexivity].
        specialize (Hheld b j Hb). congruence. }
    rewrite Hone, map_size_singleton in Hcount. lia.
  - assert (Hnone : irps st = ∅).
    { apply map_empty. intros b.
      destruct (irps st !! b) as [j|] eqn:Hb; [|reflexivity].
      specialize (Hheld b j Hb). discriminate. }
    rewrite Hnone, map_size_empty in Hcount. lia.
Qed.

Lemma every_request_is_completed_or_waiting_witness :
  (forall a i, irps sample_state !! a = Some i ->
               g_PendingIrp sample_state = Some a)
  /\ arrivals sample_requests
     = (length (completed sample_state)
        + match g_PendingIrp sample_state with Some _ => 1 | None => 0 end
       )%nat.
Proof.
  apply (every_request_is_completed_or_waiting sample_requests sample_state);
    vm_compute; reflexivity.
Defined.

(** X9.  A wait request that is pending when the driver unloads is lost
    for good: whatever requests follow the unload, the request is still
    held, with its cancel bit set and otherwise as it was, and the slot
    never points to it again, so nothing ever completes it. *)
Theorem unloaded_waiter_is_never_completed
    (rs rs' : list Request) (st st' : KernelState) (t : PIRP) (i : IRP) :
  run rs initial_state = Some st ->
  g_PendingIrp st = Some t ->
  irps st !! t = Some i ->
  run (Unload :: rs') st = Some st' ->
  irps st' !! t = Some (set_Cancel true i)
  /\ g_PendingIrp st' <> Some t.
Proof.
  intros Hrun Hpend Hlive Hrun'.
  assert (Hinv : single_slot st)
    by exact (run_preserves rs _ _ single_slot_initial Hrun).
  cbn [run admissible arrive serve] in Hrun'.
  rewrite (unload_pending t i st Hpend Hlive) in Hrun'.
  set (st1 := mkKernelState None (g_IrpQueueLock st)
                (<[t := set_Cancel true i]> (irps st)) (completed st)
                (os_calls st ++ unload_calls)) in *.
  assert (Hinv1 : single_slot st1).
  { destruct (unload_preserves st Hinv) as (st2 & Hstep & Hinv2).
    rewrite (unload_pending t i st Hpend Hlive) in Hstep.
    now injection Hstep as <-. }
  destruct (run_steps rs' st1 st' Hinv1 Hrun') as (Hinv' & _ & Hkeep & _).
  assert (Hheld : irps st' !! t = Some (set_Cancel true i))
    by (apply Hkeep; [apply lookup_insert_eq | reflexivity]).
  split; [exact Hheld|].
  intros Hslot. destruct Hinv' as (_ & _ & Hpoint).
  destruct (Hpoint t Hslot) as (w & Hw & Hc & _).
  rewrite Hheld in Hw. injection Hw as <-. discriminate.
Qed.

Lemma unloaded_waiter_is_never_completed_witness :
  exists st',
    run (Unload :: after_unload_requests) sample_state = Some st'
    /\ irps st' !! 3%N
       = Some (set_Cancel true
                 (set_PendingReturned true
                    (new_irp IOCTL_CYBERION_GET_PROCESS_INFO zero_buffer)))
    /\ g_PendingIrp st' <> Some 3%N.
Proof.
  eexists. split; [vm_compute; reflexivity|].
  apply (unloaded_waiter_is_never_completed sample_requests
           after_unload_requests sample_state _ 3%N
           (set_PendingReturned true
              (new_irp IOCTL_CYBERION_GET_PROCESS_INFO zero_buffer)));
    vm_compute; reflexivity.
Defined.

(** ** Loading and unloading *)

Lemma all_succeed_each os :
  all_succeed os = true ->
  NT_SUCCESS (IoCreateDevice_status os) = true
  /\ NT_SUCCESS (IoCreateSymbolicLink_status os) = true
  /\ NT_SUCCESS (PsSetCreateProcessNotifyRoutineEx_status os) = true.
Proof.
  unfold all_succeed. rewrite !andb_true_iff. tauto.
Qed.

Lemma DriverEntry_loaded os ls :
  all_succeed os = true ->
  DriverEntry os ls =
    (STATUS_SUCCESS,
     mkLoadState (with_lock false (kernel ls))
       (mkDRIVER_OBJECT (Some Routine_CyberionUnload)
          (<[IRP_MJ_DEVICE_CONTROL := Routine_CyberionDeviceControl]>
             (<[IRP_MJ_CLOSE := Routine_CyberionCreateClose]>
                (<[IRP_MJ_CREATE := Routine_CyberionCreateClose]>
                   (MajorFunction (DriverObject ls))))))
       (Some (IoCreateDevice_object os))
       (mkOsObjects (Some (IoCreateDevice_object os)) true true)).
Proof.
  intros Hall. destruct (all_succeed_each os Hall) as (H1 & H2 & H3).
  unfold DriverEntry, IoCreateDevice, IoCreateSymbolicLink,
    PsSetCreateProcessNotifyRoutineEx.
  rewrite H1. cbn. rewrite H1, H2. cbn. rewrite H2, H3. cbn.
  now rewrite H3.
Qed.

(** X10.  When the three OS calls succeed, [DriverEntry] returns
    STATUS_SUCCESS (whatever success status the last call gave), the
    device, the link and the callback registration all exist, the unload
    routine and the create, close and device-control dispatch routines are
    installed and no other dispatch entry is changed, the lock is free, and
    the slot and the IRPs are left as they were. *)
Theorem DriverEntry_installs_the_driver (os : OsReplies) (ls : LoadState) :
  all_succeed os = true ->
  exists ls',
    DriverEntry os ls = (STATUS_SUCCESS, ls')
    /\ objects ls' = mkOsObjects (Some (IoCreateDevice_object os)) true true
    /\ g_DeviceObject ls' = Some (IoCreateDevice_object os)
    /\ DriverUnload (DriverObject ls') = Some Routine_CyberionUnload
    /\ MajorFunction (DriverObject ls') !! IRP_MJ_CREATE
       = Some Routine_CyberionCreateClose
    /\ MajorFunction (DriverObject ls') !! IRP_MJ_CLOSE
       = Some Routine_CyberionCreateClose
    /\ MajorFunction (DriverObject ls') !! IRP_MJ_DEVICE_CONTROL
       = Some Routine_CyberionDeviceControl
    /\ (forall mj, mj <> IRP_MJ_CREATE -> mj <> IRP_MJ_CLOSE ->
                   mj <> IRP_MJ_DEVICE_CONTROL ->
                   MajorFunction (DriverObject ls') !! mj
                   = MajorFunction (DriverObject ls) !! mj)
    /\ g_IrpQueueLock (kernel ls') = false
    /\ g_PendingIrp (kernel ls') = g_PendingIrp (kernel ls)
    /\ irps (kernel ls') = irps (kernel ls)
    /\ completed (kernel ls') = completed (kernel ls).
Proof.
  intros Hall. eexists. split; [now apply DriverEntry_loaded|].
  cbn [objects g_DeviceObject DriverObject DriverUnload MajorFunction kernel].
  repeat split.
  - rewrite !lookup_insert_ne by discriminate. apply lookup_insert_eq.
  - rewrite lookup_insert_ne by discriminate. apply lookup_insert_eq.
  - apply lookup_insert_eq.
  - intros mj Hc Hcl Hdc. now rewrite !lookup_insert_ne by congruence.
Qed.

Lemma DriverEntry_installs_the_driver_witness :
  exists ls',
    DriverEntry replies_ok fresh_load = (STATUS_SUCCESS, ls')
    /\ objects ls' = mkOsObjects (Some 77%N) true true
    /\ g_DeviceObject ls' = Some 77%N
    /\ DriverUnload (DriverObject ls') = Some Routine_CyberionUnload
    /\ MajorFunction (DriverObject ls') !! IRP_MJ_CREATE
       = Some Routine_CyberionCreateClose
    /\ MajorFunction (DriverObject ls') !! IRP_MJ_CLOSE
       = Some Routine_CyberionCreateClose
    /\ MajorFunction (DriverObject ls') !! IRP_MJ_DEVICE_CONTROL
       = Some Routine_CyberionDeviceControl
    /\ (forall mj, mj <> IRP_MJ_CREATE -> mj <> IRP_MJ_CLOSE ->
                   mj <> IRP_MJ_DEVICE_CONTROL ->
                   MajorFunction (DriverObject ls') !! mj
                   = MajorFunction (DriverObject fresh_load) !! mj)
    /\ g_IrpQueueLock (kernel ls') = false
    /\ g_PendingIrp (kernel ls') = None
    /\ irps (kernel ls') = ∅
    /\ completed (kernel ls') = [].
Proof.
  apply (DriverEntry_installs_the_driver replies_ok fresh_load). reflexivity.
Defined.

(** X11.  When one of the three OS calls fails, [DriverEntry] returns the
    status of the first call that failed, a failure status, and undoes what
    it had created: starting with nothing in the OS it ends with nothing in
    the OS (no device, no link, no callback registered), and the slot, the
    lock and the IRPs are not touched. *)
Theorem DriverEntry_failure_unwinds (os : OsReplies) (ls : LoadState) :
  objects ls = no_objects ->
  all_succeed os = false ->
  exists ls',
    DriverEntry os ls = (first_failure os, ls')
    /\ NT_SUCCESS (first_failure os) = false
    /\ objects ls' = no_objects
    /\ kernel ls' = kernel ls.
Proof.
  intros Hnone Hfail. destruct ls as [k d g o]. cbn in Hnone. subst o.
  unfold all_succeed in Hfail.
  unfold DriverEntry, first_failure, IoCreateDevice, IoCreateSymbolicLink,
    PsSetCreateProcessNotifyRoutineEx.
  destruct (NT_SUCCESS (IoCreateDevice_status os)) eqn:H1; cbn.
  - rewrite H1. cbn.
    destruct (NT_SUCCESS (IoCreateSymbolicLink_status os)) eqn:H2; cbn.
    + rewrite H2. cbn.
      destruct (NT_SUCCESS (PsSetCreateProcessNotifyRoutineEx_status os))
        eqn:H3; [discriminate|].
      cbn. rewrite H3. cbn. eexists. repeat split.
    + rewrite H2. cbn. eexists. repeat split.
  - rewrite H1. cbn. eexists. repeat split.
Qed.

Lemma DriverEntry_failure_unwinds_witness :
  exists ls',
    DriverEntry replies_link_fails fresh_load = (0xC0000035, ls')
    /\ NT_SUCCESS 0xC0000035 = false
    /\ objects ls' = no_objects
    /\ kernel ls' = initial_state.
Proof.
  apply (DriverEntry_failure_unwinds replies_link_fails fresh_load);
    reflexivity.
Defined.

Lemma perform_unload_calls (o : OsObjects) (l : list OsCall) :
  fold_left (fun o c => perform c o)
    (skipn (length l) (l ++ unload_calls)) o = no_objects.
Proof.
  rewrite skipn_app, skipn_all, Nat.sub_diag. reflexivity.
Qed.

(** X12.  Load and unload balance: after a successful [DriverEntry] on a
    driver with zeroed globals and any sequence of requests, the unload
    runs to its end and leaves nothing of the driver in the OS: no device,
    no link, no registered callback; the slot is empty and nothing more has
    been handed back. *)
Theorem unload_undoes_DriverEntry
    (os : OsReplies) (ls : LoadState) (rs : list Request)
    (k : KernelState) :
  kernel ls = initial_state ->
  all_succeed os = true ->
  run rs (kernel (snd (DriverEntry os ls))) = Some k ->
  exists ls',
    unload_driver (with_kernel k (snd (DriverEntry os ls))) = Some ls'
    /\ objects ls' = no_objects
    /\ g_PendingIrp (kernel ls') = None
    /\ completed (kernel ls') = completed k.
Proof.
  intros Hzero Hall Hrun.
  rewrite (DriverEntry_loaded os ls Hall) in *. cbn [snd kernel] in Hrun.
  rewrite Hzero in Hrun.
  assert (Hinv : single_slot k)
    by exact (run_preserves rs _ _ single_slot_initial Hrun).
  unfold unload_driver. cbn [with_kernel kernel objects].
  destruct (g_PendingIrp k) as [t|] eqn:Hpend.
  - destruct Hinv as (_ & _ & Hslot).
    destruct (Hslot t Hpend) as (i & Hlive & _).
    rewrite (unload_pending t i k Hpend Hlive).
    eexists. split; [reflexivity|].
    cbn [objects kernel os_calls g_PendingIrp completed].
    split; [apply perform_unload_calls|]. now split.
  - rewrite (unload_empty k Hpend).
    eexists. split; [reflexivity|].
    unfold with_os_calls.
    cbn [objects kernel os_calls g_PendingIrp completed].
    split; [apply perform_unload_calls|]. now split.
Qed.

Lemma unload_undoes_DriverEntry_witness :
  exists ls',
    unload_driver
      (with_kernel sample_state (snd (DriverEntry replies_ok fresh_load)))
      = Some ls'
    /\ objects ls' = no_objects
    /\ g_PendingIrp (kernel ls') = None
    /\ completed (kernel ls') = completed sample_state.
Proof.
  apply (unload_undoes_DriverEntry replies_ok fresh_load sample_requests
           sample_state); first [reflexivity | vm_compute; reflexivity].
Defined.

(** ** What a delivery leaves alone *)

(** X13.  A creation notification that finds a waiter touches that request
    and nothing else: every other live IRP is unchanged, the lock is free
    again, no OS call is made, and of the waiter's IRP only the record and
    the status block are written (its control code and its pending and
    cancel marks are as before). *)
Theorem delivery_touches_only_the_waiter
    (pid : HANDLE) (ci : PS_CREATE_NOTIFY_INFO) (t : PIRP) (i : IRP)
    (st : KernelState) :
  g_IrpQueueLock st = false ->
  g_PendingIrp st = Some t ->
  irps st !! t = Some i ->
  exists st' d,
    ProcessNotifyCallback pid (Some ci) st = Some (tt, st')
    /\ completed st' = completed st ++ [(t, d)]
    /\ (forall b, b <> t -> irps st' !! b = irps st !! b)
    /\ g_IrpQueueLock st' = false
    /\ os_calls st' = os_calls st
    /\ IoControlCode d = IoControlCode i
    /\ PendingReturned d = PendingReturned i
    /\ Cancel d = Cancel i.
Proof.
  intros Hlock Hpend Hlive. eexists _, (fill pid ci i).
  split; [apply (notify_waiter pid ci t i st); assumption|].
  cbn [g_IrpQueueLock irps completed os_calls]. repeat split.
  intros b Hne. now rewrite lookup_delete_ne.
Qed.

Lemma delivery_touches_only_the_waiter_witness :
  exists st' d,
    ProcessNotifyCallback 200 (Some short_event) second_wait_state
      = Some (tt, st')
    /\ completed st' = completed second_wait_state ++ [(1%N, d)]
    /\ (forall b, b <> 1%N -> irps st' !! b = irps second_wait_state !! b)
    /\ g_IrpQueueLock st' = false
    /\ os_calls st' = os_calls second_wait_state
    /\ IoControlCode d = IOCTL_CYBERION_GET_PROCESS_INFO
    /\ PendingReturned d = true
    /\ Cancel d = false.
Proof.
  apply (delivery_touches_only_the_waiter 200 short_event 1%N
           (set_PendingReturned true
              (new_irp IOCTL_CYBERION_GET_PROCESS_INFO stale_buffer))
           second_wait_state); reflexivity.
Defined.
